(** * Gemini Rewrite plugin: the rewrite-request lifecycle and the history log

    A shallow embedding of [main.ts] (the plugin class [GeminiRewritePlugin],
    the delete / clear handlers of [RewriteHistoryModal] and the history
    slider of [GeminiRewriteSettingTab]) and the properties of the rewrite
    engine and of the bounded history log.

    Plugin code is written in a small state-and-exception monad over a
    [World]: the plugin's fields, the part of the process environment it
    reads, and the chronological list of the calls it makes on its
    collaborators (notices, console, fetch, editor, persistence).  An
    [async] method is split at its suspension point: the part that runs up
    to the [await] and the part that runs once the awaited promise has
    settled, the settlement being an input chosen by the environment. *)

From Stdlib Require Import ZArith String List Bool Ascii DecimalString Lia.
Import ListNotations.

Set Warnings "-register-all".

Local Open Scope string_scope.
Local Open Scope Z_scope.

(* ================================================================= *)
(** ** JavaScript values *)

(** The values the plugin handles: what [response.json()] produces, and
    [undefined] for the properties such a value lacks.  [VNum n] is the
    number [n] where [n] is a safe integer (of magnitude below 2^53);
    other numbers are outside the model. *)
Inductive JsValue : Type :=
| VUndefined
| VNull
| VBool (b : bool)
| VNum (n : Z)
| VStr (s : string)
| VArr (items : list JsValue)
| VObj (fields : list (string * JsValue)).

(** An [Error] object, as far as the plugin looks at it. *)
Record JsError : Type := mkError { name : string; message : string }.

(** [new Error(msg)] *)
Definition Error (msg : string) : JsError := mkError "Error" msg.
(** the error of a property read on [null] or [undefined] (V8 wording) *)
Definition TypeError_read (what key : string) : JsError :=
  mkError "TypeError"
    ("Cannot read properties of " ++ what ++ " (reading '" ++ key ++ "')").

Definition newline : string := String (ascii_of_nat 10) EmptyString.

(** [String(n)] for a safe integer: its decimal numeral *)
Definition string_of_Z (n : Z) : string := NilZero.string_of_int (Z.to_int n).

(** [!!s] for a string *)
Definition truthy_string (s : string) : bool :=
  match s with EmptyString => false | String _ _ => true end.

(** [!!v] (ToBoolean) *)
Definition truthy (v : JsValue) : bool :=
  match v with
  | VUndefined => false
  | VNull => false
  | VBool b => b
  | VNum n => negb (n =? 0)
  | VStr s => truthy_string s
  | VArr _ => true
  | VObj _ => true
  end.

Fixpoint own_property (fields : list (string * JsValue)) (key : string)
  : JsValue :=
  match fields with
  | [] => VUndefined
  | (k, v) :: rest => if String.eqb k key then v else own_property rest key
  end.

(** [v.key] on a value that is neither [null] nor [undefined], for a key
    that is no built-in property ([candidates], [content], [parts], [text],
    [error], [message]): only an object can have it. *)
Definition get_property (v : JsValue) (key : string) : JsValue :=
  match v with
  | VObj fields => own_property fields key
  | _ => VUndefined
  end.

(** [v[0]] on a value that is neither [null] nor [undefined]; on a string,
    the string of its first character *)
Definition get_index0 (v : JsValue) : JsValue :=
  match v with
  | VArr items => nth 0 items VUndefined
  | VObj fields => own_property fields "0"
  | VStr (String c _) => VStr (String c EmptyString)
  | _ => VUndefined
  end.

(** [v?.key] and [v?.[0]]: [undefined] when [v] is [null] or [undefined] *)
Definition optional (v : JsValue) (access : JsValue -> JsValue) : JsValue :=
  match v with
  | VUndefined => VUndefined
  | VNull => VUndefined
  | x => access x
  end.

(** [a || b] *)
Definition js_or (a b : JsValue) : JsValue := if truthy a then a else b.

(** an index argument of [slice] / [splice] made relative to the length *)
Definition relative_index (len i : Z) : Z :=
  if i <? 0 then Z.max (len + i) 0 else Z.min i len.

(** [l.slice(start, end)] *)
Definition slice {A : Type} (l : list A) (start end_ : Z) : list A :=
  let len := Z.of_nat (length l) in
  let k := relative_index len start in
  let final := relative_index len end_ in
  firstn (Z.to_nat (final - k)) (skipn (Z.to_nat k) l).

(** the array left by [l.splice(start, deleteCount)] *)
Definition splice {A : Type} (l : list A) (start deleteCount : Z) : list A :=
  let len := Z.of_nat (length l) in
  let actualStart := relative_index len start in
  let actualDeleteCount := Z.min (Z.max deleteCount 0) (len - actualStart) in
  firstn (Z.to_nat actualStart) l
    ++ skipn (Z.to_nat (actualStart + actualDeleteCount)) l.

(* ================================================================= *)
(** ** Settings and history records *)

(** [rewrittenText] holds whatever [callGeminiAPI] returned: the value at
    [candidates[0].content.parts[0].text] of the response, a string for a
    well-formed response (TypeScript's annotation is erased at run time). *)
Record RewriteHistoryItem : Type := {
  originalText : string;
  rewrittenText : JsValue;
  prompt : string;
  timestamp : Z;
  model : string
}.

Record GeminiRewriteSettings : Type := {
  geminiApiKey : string;
  customPrompt : string;
  useEnvApiKey : bool;
  maxHistoryItems : Z;
  rewriteHistory : list RewriteHistoryItem;
  selectedModel : string
}.

Definition GEMINI_MODELS : list (string * string) :=
  [ ("gemini-pro", "Gemini Pro");
    ("gemini-1.5-pro", "Gemini 1.5 Pro");
    ("gemini-2.0-pro", "Gemini 2.0 Pro");
    ("gemini-2.0-flash", "Gemini 2.0 Flash (Faster)");
    ("gemini-2.5-pro-exp-03-25", "Gemini 2.5 Pro (Experimental)") ].

Fixpoint lookup_model (table : list (string * string)) (key : string)
  : option string :=
  match table with
  | [] => None
  | (k, v) :: rest => if String.eqb k key then Some v else lookup_model rest key
  end.

(** The members [GEMINI_MODELS] inherits from [Object.prototype], each
    with what a template literal prints for it (V8): the source text of a
    built-in function, and ["[object Object]"] for the prototype itself,
    which is what [__proto__] reads. *)
Definition Object_prototype : list (string * string) :=
  [ ("constructor", "function Object() { [native code] }");
    ("__defineGetter__", "function __defineGetter__() { [native code] }");
    ("__defineSetter__", "function __defineSetter__() { [native code] }");
    ("hasOwnProperty", "function hasOwnProperty() { [native code] }");
    ("__lookupGetter__", "function __lookupGetter__() { [native code] }");
    ("__lookupSetter__", "function __lookupSetter__() { [native code] }");
    ("isPrototypeOf", "function isPrototypeOf() { [native code] }");
    ("propertyIsEnumerable",
     "function propertyIsEnumerable() { [native code] }");
    ("toString", "function toString() { [native code] }");
    ("valueOf", "function valueOf() { [native code] }");
    ("__proto__", "[object Object]");
    ("toLocaleString", "function toLocaleString() { [native code] }") ].

(** [GEMINI_MODELS[selectedModel] || selectedModel], as a template literal
    prints it: the display name for a key of the table, the inherited
    member for a name of [Object.prototype] (functions and the prototype
    are truthy), the model id itself otherwise. *)
Definition model_display (selectedModel : string) : string :=
  match lookup_model GEMINI_MODELS selectedModel with
  | Some (String c d) => String c d
  | _ =>
      match lookup_model Object_prototype selectedModel with
      | Some inherited => inherited
      | None => selectedModel
      end
  end.

(** [DEFAULT_SETTINGS], given [process.env.GEMINI_DEFAULT_PROMPT] *)
Definition DEFAULT_SETTINGS (GEMINI_DEFAULT_PROMPT : option string)
  : GeminiRewriteSettings :=
  {| geminiApiKey := "";
     customPrompt :=
       match GEMINI_DEFAULT_PROMPT with
       | Some (String c p) => String c p
       | _ => "Please rewrite the following text:"
       end;
     useEnvApiKey := true;
     maxHistoryItems := 10;
     rewriteHistory := [];
     selectedModel := "gemini-2.5-pro-exp-03-25" |}.

Definition with_rewriteHistory (h : list RewriteHistoryItem)
  (s : GeminiRewriteSettings) : GeminiRewriteSettings :=
  {| geminiApiKey := geminiApiKey s;
     customPrompt := customPrompt s;
     useEnvApiKey := useEnvApiKey s;
     maxHistoryItems := maxHistoryItems s;
     rewriteHistory := h;
     selectedModel := selectedModel s |}.

Definition with_maxHistoryItems (n : Z) (s : GeminiRewriteSettings)
  : GeminiRewriteSettings :=
  {| geminiApiKey := geminiApiKey s;
     customPrompt := customPrompt s;
     useEnvApiKey := useEnvApiKey s;
     maxHistoryItems := n;
     rewriteHistory := rewriteHistory s;
     selectedModel := selectedModel s |}.

(* ================================================================= *)
(** ** The world the plugin runs in *)

(** An [AbortController] is known by its identity: the number of
    controllers created before it. *)
Definition AbortController : Type := nat.

(** Calls on the collaborators, in the order they are made. *)
Inductive Effect : Type :=
| Notice (text : string)                         (* new Notice(text) *)
| ConsoleError (label : string) (e : JsError)    (* console.error(label, e) *)
| Fetch (url : string) (body : JsValue) (signal : AbortController)
| Abort (c : AbortController)                    (* c.abort() *)
| ReplaceSelection (replacement : JsValue)       (* editor.replaceSelection *)
| SaveData (s : GeminiRewriteSettings)           (* this.saveData(settings) *)
| SetText (text : string)                        (* statusBarItem.setText *)
| ModalClose
| ModalOpen.

Record World : Type := {
  settings : GeminiRewriteSettings;              (* this.settings *)
  abortController : option AbortController;      (* this.abortController *)
  created : nat;                                 (* controllers created so far *)
  GEMINI_API_KEY : option string;                (* process.env.GEMINI_API_KEY *)
  effects : list Effect
}.

Definition with_settings (s : GeminiRewriteSettings) (w : World) : World :=
  {| settings := s; abortController := abortController w;
     created := created w; GEMINI_API_KEY := GEMINI_API_KEY w;
     effects := effects w |}.

Definition with_abortController (c : option AbortController) (w : World)
  : World :=
  {| settings := settings w; abortController := c;
     created := created w; GEMINI_API_KEY := GEMINI_API_KEY w;
     effects := effects w |}.

Definition with_created (n : nat) (w : World) : World :=
  {| settings := settings w; abortController := abortController w;
     created := n; GEMINI_API_KEY := GEMINI_API_KEY w;
     effects := effects w |}.

Definition with_effects (l : list Effect) (w : World) : World :=
  {| settings := settings w; abortController := abortController w;
     created := created w; GEMINI_API_KEY := GEMINI_API_KEY w;
     effects := l |}.

(* ================================================================= *)
(** ** The monad of plugin code *)

Inductive Completion (A : Type) : Type :=
| Normal (a : A)
| Throw (e : JsError).
Arguments Normal {A} a.
Arguments Throw {A} e.

(** does the object have an own property [key]? *)
Definition has_own_property (fields : list (string * JsValue)) (key : string)
  : bool :=
  existsb (fun field => String.eqb (fst field) key) fields.

(** the error of a conversion that finds no primitive (V8 wording) *)
Definition TypeError_primitive : JsError :=
  mkError "TypeError" "Cannot convert object to primitive value".

(** [String(v)], the conversion a template literal applies.  An object is
    printed by the [toString] it inherits, unless an own property hides
    it: no value of a parsed body is callable, and the inherited [valueOf]
    returns the object, so the conversion throws.  An array is printed by
    [join], its [undefined] and [null] elements as empty strings. *)
Fixpoint ToString (v : JsValue) : Completion string :=
  match v with
  | VUndefined => Normal "undefined"
  | VNull => Normal "null"
  | VBool true => Normal "true"
  | VBool false => Normal "false"
  | VNum n => Normal (string_of_Z n)
  | VStr s => Normal s
  | VArr items =>
      (fix join (l : list JsValue) : Completion string :=
         match l with
         | [] => Normal ""
         | x :: rest =>
             match
               match x with
               | VUndefined => Normal ""
               | VNull => Normal ""
               | _ => ToString x
               end
             with
             | Throw e => Throw e
             | Normal first =>
                 match rest with
                 | [] => Normal first
                 | _ :: _ =>
                     match join rest with
                     | Throw e => Throw e
                     | Normal others => Normal (first ++ "," ++ others)
                     end
                 end
             end
         end) items
  | VObj fields =>
      if has_own_property fields "toString" then Throw TypeError_primitive
      else Normal "[object Object]"
  end.

Definition M (A : Type) : Type := World -> Completion A * World.

Definition ret {A} (a : A) : M A := fun w => (Normal a, w).

Definition bind {A B} (m : M A) (k : A -> M B) : M B :=
  fun w =>
    match m w with
    | (Normal a, w') => k a w'
    | (Throw e, w') => (Throw e, w')
    end.

Definition throw {A} (e : JsError) : M A := fun w => (Throw e, w).

(** [try { body } catch (error) { handler error }] *)
Definition try_catch {A} (body : M A) (handler : JsError -> M A) : M A :=
  fun w =>
    match body w with
    | (Normal a, w') => (Normal a, w')
    | (Throw e, w') => handler e w'
    end.

(** [try { body } finally { cleanup }] *)
Definition try_finally {A} (body : M A) (cleanup : M unit) : M A :=
  fun w =>
    match body w with
    | (r, w') =>
        match cleanup w' with
        | (Normal _, w'') => (r, w'')
        | (Throw e, w'') => (Throw e, w'')
        end
    end.

(** run [m] and hand its completion over instead of propagating it *)
Definition attempt {A} (m : M A) : M (Completion A) :=
  fun w => match m w with (r, w') => (Normal r, w') end.

(** a computation that touches nothing of the world *)
Definition pure {A} (c : Completion A) : M A := fun w => (c, w).

Definition get : M World := fun w => (Normal w, w).
Definition modify (f : World -> World) : M unit := fun w => (Normal tt, f w).
Definition emit (e : Effect) : M unit :=
  modify (fun w => with_effects (effects w ++ [e]) w).

Declare Scope plugin_scope.
Delimit Scope plugin_scope with plugin.
Notation "x <- m ;; k" := (bind m (fun x => k))
  (at level 61, m at next level, right associativity) : plugin_scope.
Notation "m ;; k" := (bind m (fun _ => k))
  (at level 61, right associativity) : plugin_scope.
Local Open Scope plugin_scope.

(** the world a computation leaves, and its completion *)
Definition exec {A} (m : M A) (w : World) : World := snd (m w).
Definition result {A} (m : M A) (w : World) : Completion A := fst (m w).

(* ================================================================= *)
(** ** [GeminiRewritePlugin] *)

Definition saveSettings : M unit :=
  w <- get ;; emit (SaveData (settings w)).

Definition cancelOngoingRewrite_notice : string := "Rewrite request cancelled".

Definition setLoadingState (isLoading : bool) : M unit :=
  if isLoading then
    w <- get ;;
    let modelDisplay := model_display (selectedModel (settings w)) in
    emit (SetText ("🔄 Rewriting with " ++ modelDisplay ++ "..."))
  else
    emit (SetText "").

Definition cancelOngoingRewrite : M unit :=
  w <- get ;;
  match abortController w with
  | Some c =>
      emit (Abort c) ;;
      modify (with_abortController None) ;;
      setLoadingState false ;;
      emit (Notice cancelOngoingRewrite_notice)
  | None => ret tt
  end.

(** the callback of the command "Cancel Ongoing Rewrite" *)
Definition cancel_rewrite_command : M unit :=
  emit (Notice "Attempting to cancel ongoing rewrite request") ;;
  cancelOngoingRewrite.

(** [addToHistory]; [now] is what [Date.now()] returns during the call. *)
Definition addToHistory (now : Z) (originalText : string)
  (rewrittenText : JsValue) (prompt : string) : M unit :=
  w <- get ;;
  let historyItem :=
    {| originalText := originalText;
       rewrittenText := rewrittenText;
       prompt := prompt;
       timestamp := now;
       model := selectedModel (settings w) |} in
  (* unshift *)
  modify (fun w =>
    with_settings
      (with_rewriteHistory (historyItem :: rewriteHistory (settings w))
         (settings w)) w) ;;
  w <- get ;;
  (if Z.of_nat (length (rewriteHistory (settings w)))
        >? maxHistoryItems (settings w)
   then
     modify (fun w =>
       with_settings
         (with_rewriteHistory
            (slice (rewriteHistory (settings w)) 0
               (maxHistoryItems (settings w)))
            (settings w)) w)
   else ret tt) ;;
  saveSettings.

(** [v.key] and [v[0]] without [?.]: a [TypeError] on [null] and [undefined] *)
Definition member (v : JsValue) (key : string) : M JsValue :=
  match v with
  | VUndefined => throw (TypeError_read "undefined" key)
  | VNull => throw (TypeError_read "null" key)
  | x => ret (get_property x key)
  end.

Definition element0 (v : JsValue) : M JsValue :=
  match v with
  | VUndefined => throw (TypeError_read "undefined" "0")
  | VNull => throw (TypeError_read "null" "0")
  | x => ret (get_index0 x)
  end.

(** How a promise settles. *)
Inductive Settled (A : Type) : Type :=
| Fulfilled (a : A)
| Rejected (e : JsError).
Arguments Fulfilled {A} a.
Arguments Rejected {A} e.

(** A [Response], as far as [callGeminiAPI] looks at it: its status and the
    settlement of the one [response.json()] the code awaits on it. *)
Record Response : Type := {
  status : Z;
  json : Settled JsValue
}.

(** [response.ok] *)
Definition ok (response : Response) : bool :=
  (200 <=? status response) && (status response <=? 299).

(** [await promise] once the promise has settled *)
Definition await {A} (p : Settled A) : M A :=
  match p with
  | Fulfilled a => ret a
  | Rejected e => throw e
  end.

(** A call of [rewriteWithGemini] suspended at [await fetch(...)]: the local
    variables its continuation still uses. *)
Record Pending : Type := {
  selection : string;
  signal : AbortController
}.

Definition missing_key_message : string :=
  "Gemini API key is not set. Please add it to your .env file or plugin settings.".

(** [process.env.GEMINI_API_KEY || this.settings.geminiApiKey] under
    [useEnvApiKey], [this.settings.geminiApiKey] otherwise *)
Definition apiKey (w : World) : string :=
  if useEnvApiKey (settings w) then
    match GEMINI_API_KEY w with
    | Some (String c k) => String c k
    | _ => geminiApiKey (settings w)
    end
  else geminiApiKey (settings w).

Definition endpoint (model : string) : string :=
  "https://generativelanguage.googleapis.com/v1beta/models/" ++ model
    ++ ":generateContent".

Definition request_body (prompt text : string) : JsValue :=
  VObj [("contents",
         VArr [VObj [("parts",
                      VArr [VObj [("text",
                                   VStr (prompt ++ newline ++ newline ++ text))]])]])].

(** [callGeminiAPI], from its entry to the [await] on [fetch] *)
Definition callGeminiAPI_request (text : string) : M AbortController :=
  w <- get ;;
  let c : AbortController := created w in
  modify (with_created (S (created w))) ;;
  modify (with_abortController (Some c)) ;;
  let signal := c in
  w <- get ;;
  let apiKey := apiKey w in
  if negb (truthy_string apiKey) then throw (Error missing_key_message)
  else
    let prompt := customPrompt (settings w) in
    let model := selectedModel (settings w) in
    emit (Fetch (endpoint model ++ "?key=" ++ apiKey)
                (request_body prompt text) signal) ;;
    ret signal.

(** [candidates?.[0]?.content?.parts?.[0]?.text] *)
Definition candidate_text (candidates : JsValue) : JsValue :=
  optional
    (optional
       (optional
          (optional
             (optional candidates get_index0)
             (fun v => get_property v "content"))
          (fun v => get_property v "parts"))
       get_index0)
    (fun v => get_property v "text").

(** [errorData?.error?.message] *)
Definition error_message (errorData : JsValue) : JsValue :=
  optional (optional errorData (fun v => get_property v "error"))
    (fun v => get_property v "message").

Definition invalid_response_message : string :=
  "Invalid response from Gemini API".

(** [callGeminiAPI], from the settlement of [fetch] to its end: the [try]
    block after the first [await], its [catch] and its [finally].  The
    code between the two awaits reads no field of the plugin, so both
    settlements are taken at once. *)
Definition callGeminiAPI_response (fetched : Settled Response) : M JsValue :=
  try_finally
    (try_catch
       (response <- await fetched ;;
        (if negb (ok response) then
           let errorData :=
             match json response with
             | Fulfilled d => d
             | Rejected _ => VNull
             end in
           let errorMessage :=
             js_or (error_message errorData)
                   (VStr ("Status: " ++ string_of_Z (status response))) in
           printed <- pure (ToString errorMessage) ;;
           throw (Error ("API request failed: " ++ printed))
         else ret tt) ;;
        data <- await (json response) ;;
        candidates <- member data "candidates" ;;
        if negb (truthy (candidate_text candidates))
        then throw (Error invalid_response_message)
        else
          candidates <- member data "candidates" ;;
          candidate <- element0 candidates ;;
          content <- member candidate "content" ;;
          parts <- member content "parts" ;;
          part <- element0 parts ;;
          member part "text")
       (fun error =>
          emit (ConsoleError "Error calling Gemini API:" error) ;;
          throw error))
    (modify (with_abortController None)).

(** the [catch] block of [rewriteWithGemini] *)
Definition rewriteWithGemini_catch (error : JsError) : M unit :=
  if negb (String.eqb (name error) "AbortError") then
    emit (ConsoleError "Error calling Gemini API:" error) ;;
    emit (Notice ("Error: " ++
                  (if truthy_string (message error) then message error
                   else "Failed to rewrite text")))
  else ret tt.

(** the [try] / [catch] / [finally] of [rewriteWithGemini] around a part of
    its [try] block *)
Definition rewriteWithGemini_try (block : M unit) : M unit :=
  try_finally (try_catch block rewriteWithGemini_catch)
              (setLoadingState false).

(** [rewriteWithGemini], from its entry to the [await] inside
    [callGeminiAPI]; [selected] is [editor.getSelection()].  [Some p] when
    the call is suspended there, [None] when it has returned. *)
Definition rewriteWithGemini_request (selected : string)
  : M (option Pending) :=
  if negb (truthy_string selected) then
    emit (Notice "No text selected") ;;
    ret None
  else
    setLoadingState true ;;
    called <- attempt (callGeminiAPI_request selected) ;;
    match called with
    | Normal c => ret (Some {| selection := selected; signal := c |})
    | Throw e => rewriteWithGemini_try (throw e) ;; ret None
    end.

(** [rewriteWithGemini], from the settlement of [fetch] to its end *)
Definition rewriteWithGemini_response (now : Z) (p : Pending)
  (fetched : Settled Response) : M unit :=
  rewriteWithGemini_try
    (rewrittenText <- callGeminiAPI_response fetched ;;
     emit (ReplaceSelection rewrittenText) ;;
     w <- get ;;
     addToHistory now (selection p) rewrittenText
       (customPrompt (settings w)) ;;
     emit (Notice "Text successfully rewritten")).

(** A call of [rewriteWithGemini] during which nothing else runs. *)
Definition rewriteWithGemini (now : Z) (selected : string)
  (fetched : Settled Response) : M unit :=
  p <- rewriteWithGemini_request selected ;;
  match p with
  | Some p => rewriteWithGemini_response now p fetched
  | None => ret tt
  end.

(* ================================================================= *)
(** ** [RewriteHistoryModal] and [GeminiRewriteSettingTab] handlers *)

(** the click handler of the Delete button which [onOpen] made for the
    item at [index] of its [forEach] *)
Definition deleteBtn_click (index : nat) : M unit :=
  modify (fun w =>
    with_settings
      (with_rewriteHistory
         (splice (rewriteHistory (settings w)) (Z.of_nat index) 1)
         (settings w)) w) ;;
  saveSettings ;;
  emit ModalClose ;;
  emit ModalOpen ;;
  emit (Notice "History item deleted").

(** the click handler of the Clear All History button *)
Definition clearAllBtn_click : M unit :=
  modify (fun w => with_settings (with_rewriteHistory [] (settings w)) w) ;;
  saveSettings ;;
  emit ModalClose ;;
  emit (Notice "History cleared").

(** the [onChange] handler of the Max History Items slider *)
Definition maxHistoryItems_onChange (value : Z) : M unit :=
  modify (fun w => with_settings (with_maxHistoryItems value (settings w)) w) ;;
  w <- get ;;
  (if Z.of_nat (length (rewriteHistory (settings w))) >? value
   then
     modify (fun w =>
       with_settings
         (with_rewriteHistory (slice (rewriteHistory (settings w)) 0 value)
            (settings w)) w)
   else ret tt) ;;
  saveSettings.

(* ================================================================= *)
(** ** Sequences of appends *)

(** The arguments of one call of [addToHistory], with the clock reading
    during the call. *)
Record Append : Type := {
  at_time : Z;
  original : string;
  rewritten : JsValue;
  with_prompt : string
}.

Fixpoint appends (calls : list Append) : M unit :=
  match calls with
  | [] => ret tt
  | c :: rest =>
      addToHistory (at_time c) (original c) (rewritten c) (with_prompt c) ;;
      appends rest
  end.

(** the record [addToHistory] builds for a call, in world [w] *)
Definition item (w : World) (c : Append) : RewriteHistoryItem :=
  {| originalText := original c;
     rewrittenText := rewritten c;
     prompt := with_prompt c;
     timestamp := at_time c;
     model := selectedModel (settings w) |}.

Definition history (w : World) : list RewriteHistoryItem :=
  rewriteHistory (settings w).

(** the invariant of the history log *)
Definition bounded (w : World) : Prop :=
  0 <= maxHistoryItems (settings w)
  /\ Z.of_nat (length (history w)) <= maxHistoryItems (settings w).

(** the effects a computation adds to those of the world it starts in *)
Definition emitted {A} (m : M A) (w : World) : list Effect :=
  skipn (length (effects w)) (effects (exec m w)).

Definition is_Fetch (e : Effect) : bool :=
  match e with Fetch _ _ _ => true | _ => false end.
Definition is_Notice (e : Effect) : bool :=
  match e with Notice _ => true | _ => false end.
Definition is_Abort (e : Effect) : bool :=
  match e with Abort _ => true | _ => false end.

(* ================================================================= *)
(** ** Worlds, outcomes and inputs the statements speak of *)

(** the world [addToHistory] leaves *)
Definition appended (now : Z) (originalText : string)
  (rewrittenText : JsValue) (prompt : string) (w : World) : World :=
  let s :=
    with_rewriteHistory
      (firstn (Z.to_nat (maxHistoryItems (settings w)))
         ({| originalText := originalText;
             rewrittenText := rewrittenText;
             prompt := prompt;
             timestamp := now;
             model := selectedModel (settings w) |} :: history w))
      (settings w) in
  with_effects (effects w ++ [SaveData s]) (with_settings s w).

(** a plugin that has not run yet *)
Definition world_of (s : GeminiRewriteSettings) (key : option string)
  : World :=
  {| settings := s; abortController := None; created := 0%nat;
     GEMINI_API_KEY := key; effects := [] |}.

Definition three_appends : list Append :=
  [ {| at_time := 1; original := "a"; rewritten := VStr "A"; with_prompt := "p" |};
    {| at_time := 2; original := "b"; rewritten := VStr "B"; with_prompt := "p" |};
    {| at_time := 3; original := "c"; rewritten := VStr "C"; with_prompt := "p" |} ].

Definition world_keeping (n : Z) : World :=
  world_of (with_maxHistoryItems n (DEFAULT_SETTINGS None)) None.

(** the log after [removeAt(index)] on the log [h] *)
Definition without (index : nat) (h : list RewriteHistoryItem)
  : list RewriteHistoryItem :=
  if (index <? length h)%nat then (firstn index h ++ skipn (S index) h)%list
  else h.

Definition nullish (v : JsValue) : bool :=
  match v with VUndefined | VNull => true | _ => false end.

Definition logged (l : list Effect) (w : World) : World :=
  with_effects (effects w ++ l) w.

Definition console_label : string := "Error calling Gemini API:".

(** the error thrown for a response that is not [ok] *)
Definition upstream_error (response : Response) : JsError :=
  match
    ToString
      (js_or
         (error_message
            match json response with
            | Fulfilled d => d
            | Rejected _ => VNull
            end)
         (VStr ("Status: " ++ string_of_Z (status response))))
  with
  | Normal printed => Error ("API request failed: " ++ printed)
  | Throw e => e
  end.

(** how [callGeminiAPI] completes, by the settlement of its request *)
Definition callGeminiAPI_outcome (fetched : Settled Response)
  : Completion JsValue :=
  match fetched with
  | Rejected e => Throw e
  | Fulfilled response =>
      if negb (ok response) then Throw (upstream_error response)
      else
        match json response with
        | Rejected e => Throw e
        | Fulfilled VUndefined => Throw (TypeError_read "undefined" "candidates")
        | Fulfilled VNull => Throw (TypeError_read "null" "candidates")
        | Fulfilled data =>
            let text := candidate_text (get_property data "candidates") in
            if truthy text then Normal text
            else Throw (Error invalid_response_message)
        end
  end.

Definition success_notice : string := "Text successfully rewritten".

(** the world a call of [rewriteWithGemini] leaves when [callGeminiAPI]
    returned [rewrittenText] *)
Definition rewritten_world (now : Z) (p : Pending) (rewrittenText : JsValue)
  (w : World) : World :=
  logged [Notice success_notice; SetText ""]
    (exec (addToHistory now (selection p) rewrittenText
             (customPrompt (settings w)))
       (logged [ReplaceSelection rewrittenText]
          (with_abortController None w))).

(** the world it leaves when [callGeminiAPI] threw [error] *)
Definition failed_world (error : JsError) (w : World) : World :=
  logged [SetText ""]
    (exec (rewriteWithGemini_catch error)
       (with_abortController None
          (logged [ConsoleError console_label error] w))).

(** the world after [new AbortController()] has been stored in
    [this.abortController] *)
Definition tracking_new (w : World) : World :=
  with_abortController (Some (created w)) (with_created (S (created w)) w).

(** the request [callGeminiAPI] issues in world [w] for [text] *)
Definition request (text : string) (w : World) : Effect :=
  Fetch (endpoint (selectedModel (settings w)) ++ "?key=" ++ apiKey w)
        (request_body (customPrompt (settings w)) text)
        (created w).

(** the text [setLoadingState(true)] puts in the status bar *)
Definition loading_text (w : World) : string :=
  "🔄 Rewriting with " ++ model_display (selectedModel (settings w)) ++ "...".

(** The effective credential in the specification's words: the
    environment-sourced default if [useEnvCredential] is true, else
    [config.credential]. *)
Definition spec_effective_credential (w : World) : string :=
  if useEnvApiKey (settings w) then
    match GEMINI_API_KEY w with
    | Some k => k
    | None => ""
    end
  else geminiApiKey (settings w).

(** settings with a key typed in, the environment switch left on *)
Definition settings_with_key (key : string) : GeminiRewriteSettings :=
  {| geminiApiKey := key;
     customPrompt := "Please rewrite the following text:";
     useEnvApiKey := true;
     maxHistoryItems := 10;
     rewriteHistory := [];
     selectedModel := "gemini-2.0-flash" |}.

Definition keyed_world : World := world_of (settings_with_key "secret") None.

Definition fresh_world : World := world_of (DEFAULT_SETTINGS None) None.

(** HTTP 429 with body [{"error":{"message":"rate limited"}}] *)
Definition rate_limited : Response :=
  {| status := 429;
     json := Fulfilled (VObj [("error", VObj [("message", VStr "rate limited")])]) |}.

(** a response with status 200 whose body parses to [data] *)
Definition ok_200 (data : JsValue) : Settled Response :=
  Fulfilled {| status := 200; json := Fulfilled data |}.

(** [{"candidates":[{"content":{"parts":[{"text":"Rewritten."}]}}]}] *)
Definition rewritten_body : JsValue :=
  VObj [("candidates",
         VArr [VObj [("content",
                      VObj [("parts",
                             VArr [VObj [("text", VStr "Rewritten.")]])])]])].

(** the record [rewriteWithGemini] hands to the log when the call
    suspended as [p] resumes in world [w] with [rewrittenText] *)
Definition history_record (now : Z) (p : Pending) (rewrittenText : JsValue)
  (w : World) : RewriteHistoryItem :=
  {| originalText := selection p;
     rewrittenText := rewrittenText;
     prompt := customPrompt (settings w);
     timestamp := now;
     model := selectedModel (settings w) |}.

(** [{"candidates":[{"content":{"parts":[{"text":""}]}}]}] *)
Definition empty_text_body : JsValue :=
  VObj [("candidates",
         VArr [VObj [("content",
                      VObj [("parts", VArr [VObj [("text", VStr "")]])])]])].

(** the rejection of [fetch] when its signal is aborted *)
Definition AbortError : JsError :=
  mkError "AbortError" "The user aborted a request.".

(* ================================================================= *)
(** ** The other handlers of the plugin *)

Definition with_geminiApiKey (key : string) (s : GeminiRewriteSettings)
  : GeminiRewriteSettings :=
  {| geminiApiKey := key;
     customPrompt := customPrompt s;
     useEnvApiKey := useEnvApiKey s;
     maxHistoryItems := maxHistoryItems s;
     rewriteHistory := rewriteHistory s;
     selectedModel := selectedModel s |}.

Definition with_customPrompt (p : string) (s : GeminiRewriteSettings)
  : GeminiRewriteSettings :=
  {| geminiApiKey := geminiApiKey s;
     customPrompt := p;
     useEnvApiKey := useEnvApiKey s;
     maxHistoryItems := maxHistoryItems s;
     rewriteHistory := rewriteHistory s;
     selectedModel := selectedModel s |}.

Definition with_useEnvApiKey (b : bool) (s : GeminiRewriteSettings)
  : GeminiRewriteSettings :=
  {| geminiApiKey := geminiApiKey s;
     customPrompt := customPrompt s;
     useEnvApiKey := b;
     maxHistoryItems := maxHistoryItems s;
     rewriteHistory := rewriteHistory s;
     selectedModel := selectedModel s |}.

Definition with_selectedModel (m : string) (s : GeminiRewriteSettings)
  : GeminiRewriteSettings :=
  {| geminiApiKey := geminiApiKey s;
     customPrompt := customPrompt s;
     useEnvApiKey := useEnvApiKey s;
     maxHistoryItems := maxHistoryItems s;
     rewriteHistory := rewriteHistory s;
     selectedModel := m |}.

(** What [loadData()] resolves to: [null] ([None]) when nothing was saved,
    else an object holding some of the fields of the settings. *)
Record StoredData : Type := {
  stored_geminiApiKey : option string;
  stored_customPrompt : option string;
  stored_useEnvApiKey : option bool;
  stored_maxHistoryItems : option Z;
  stored_rewriteHistory : option (list RewriteHistoryItem);
  stored_selectedModel : option string
}.

Definition or_default {A : Type} (field : option A) (default : A) : A :=
  match field with Some a => a | None => default end.

(** [Object.assign({}, defaults, data)] *)
Definition assign (defaults : GeminiRewriteSettings) (data : option StoredData)
  : GeminiRewriteSettings :=
  match data with
  | None => defaults
  | Some d =>
      {| geminiApiKey := or_default (stored_geminiApiKey d) (geminiApiKey defaults);
         customPrompt := or_default (stored_customPrompt d) (customPrompt defaults);
         useEnvApiKey := or_default (stored_useEnvApiKey d) (useEnvApiKey defaults);
         maxHistoryItems :=
           or_default (stored_maxHistoryItems d) (maxHistoryItems defaults);
         rewriteHistory :=
           or_default (stored_rewriteHistory d) (rewriteHistory defaults);
         selectedModel :=
           or_default (stored_selectedModel d) (selectedModel defaults) |}
  end.

(** [loadSettings], as [onload] runs it when the module has just been
    evaluated; [data] is what [loadData()] resolved to. *)
Definition loadSettings (GEMINI_DEFAULT_PROMPT : option string)
  (data : option StoredData) : M unit :=
  modify (with_settings (assign (DEFAULT_SETTINGS GEMINI_DEFAULT_PROMPT) data)).

(** the object [saveData(settings)] is given: every field of the settings *)
Definition stored_of (s : GeminiRewriteSettings) : StoredData :=
  {| stored_geminiApiKey := Some (geminiApiKey s);
     stored_customPrompt := Some (customPrompt s);
     stored_useEnvApiKey := Some (useEnvApiKey s);
     stored_maxHistoryItems := Some (maxHistoryItems s);
     stored_rewriteHistory := Some (rewriteHistory s);
     stored_selectedModel := Some (selectedModel s) |}.

Definition showRewriteHistory : M unit :=
  w <- get ;;
  if (length (rewriteHistory (settings w)) =? 0)%nat then
    emit (Notice "No rewrite history available")
  else
    (* new RewriteHistoryModal(this.app, this).open() *)
    emit ModalOpen.

(** the [onChange] handlers of the settings tab *)
Definition useEnvApiKey_onChange (value : bool) : M unit :=
  modify (fun w => with_settings (with_useEnvApiKey value (settings w)) w) ;;
  saveSettings.

Definition geminiApiKey_onChange (value : string) : M unit :=
  modify (fun w => with_settings (with_geminiApiKey value (settings w)) w) ;;
  saveSettings.

Definition selectedModel_onChange (value : string) : M unit :=
  modify (fun w => with_settings (with_selectedModel value (settings w)) w) ;;
  saveSettings.

Definition customPrompt_onChange (value : string) : M unit :=
  modify (fun w => with_settings (with_customPrompt value (settings w)) w) ;;
  saveSettings.

(** the click handler of the Clear History button of the settings tab; its
    last statement, [this.display()], rebuilds the tab's elements, which
    the world does not hold *)
Definition clearHistoryBtn_click : M unit :=
  modify (fun w => with_settings (with_rewriteHistory [] (settings w)) w) ;;
  saveSettings ;;
  emit (Notice "History cleared").

(* ================================================================= *)
(** ** Runs of the plugin *)

(** What the host can make the plugin do: run a command, press a button,
    move a control, or settle the request of a suspended call. *)
Inductive Event : Type :=
| RewriteCommand (selected : string)
| Settle (now : Z) (p : Pending) (fetched : Settled Response)
| CancelCommand
| HistoryCommand
| DeleteClick (index : nat)
| ClearAllClick
| UseEnvChange (value : bool)
| KeyChange (value : string)
| ModelChange (value : string)
| PromptChange (value : string)
| LimitChange (value : Z)
| ClearHistoryClick.

Definition handle (e : Event) : M unit :=
  match e with
  | RewriteCommand selected =>
      _ <- rewriteWithGemini_request selected ;; ret tt
  | Settle now p fetched => rewriteWithGemini_response now p fetched
  | CancelCommand => cancel_rewrite_command
  | HistoryCommand => showRewriteHistory
  | DeleteClick index => deleteBtn_click index
  | ClearAllClick => clearAllBtn_click
  | UseEnvChange value => useEnvApiKey_onChange value
  | KeyChange value => geminiApiKey_onChange value
  | ModelChange value => selectedModel_onChange value
  | PromptChange value => customPrompt_onChange value
  | LimitChange value => maxHistoryItems_onChange value
  | ClearHistoryClick => clearHistoryBtn_click
  end.

Fixpoint run (events : list Event) (w : World) : World :=
  match events with
  | [] => w
  | e :: rest => run rest (exec (handle e) w)
  end.

(** the slider goes from 0 to 50 *)
Definition in_range (e : Event) : Prop :=
  match e with
  | LimitChange value => 0 <= value <= 50
  | _ => True
  end.

Definition is_RewriteCommand (e : Event) : bool :=
  match e with RewriteCommand _ => true | _ => false end.

Definition touches_history (e : Event) : bool :=
  match e with
  | Settle _ _ _ | DeleteClick _ | ClearAllClick | LimitChange _
  | ClearHistoryClick => true
  | _ => false
  end.

Definition is_SaveData (e : Effect) : bool :=
  match e with SaveData _ => true | _ => false end.

Definition is_ReplaceSelection (e : Effect) : bool :=
  match e with ReplaceSelection _ => true | _ => false end.

(** the settings last handed to [saveData] among [l], [s] if none was *)
Definition last_saved (s : GeminiRewriteSettings) (l : list Effect)
  : GeminiRewriteSettings :=
  fold_left (fun acc e => match e with SaveData s' => s' | _ => acc end) l s.

Definition busy_day : list Event :=
  [ KeyChange "secret"; RewriteCommand "one"; LimitChange 1;
    Settle 5 {| selection := "one"; signal := 0%nat |} (ok_200 rewritten_body);
    RewriteCommand "two";
    Settle 9 {| selection := "two"; signal := 1%nat |} (ok_200 rewritten_body);
    HistoryCommand; DeleteClick 3; CancelCommand ].

(** a response as the API sends them: more than one candidate, more than
    one part, and fields the plugin does not read *)
Definition two_candidates : Response :=
  {| status := 201;
     json :=
       Fulfilled
         (VObj [("usageMetadata", VObj [("totalTokenCount", VNum 12)]);
                ("candidates",
                 VArr [VObj [("finishReason", VStr "STOP");
                             ("content",
                              VObj [("role", VStr "model");
                                    ("parts",
                                     VArr [VObj [("text", VStr "First.")];
                                           VObj [("text", VStr "More.")]])])];
                       VObj [("content",
                              VObj [("parts",
                                     VArr [VObj [("text", VStr "Second.")]])])]])]) |}.

(** [fetch] rejected because the network is down *)
Definition network_down : Settled Response :=
  Rejected (mkError "TypeError" "Failed to fetch").

Definition not_json : JsError :=
  mkError "SyntaxError" "Unexpected token < in JSON at position 0".

(* ================================================================= *)
(** ** Arrays *)

(** unfold the monad's operations in the goal *)
Ltac run :=
  unfold exec, result, saveSettings, emit, bind, get, modify, ret, throw,
    attempt, try_catch, try_finally, await;
  cbn.

Lemma slice_from_0 {A : Type} (l : list A) (n : Z) :
  0 <= n -> slice l 0 n = firstn (Z.to_nat n) l.
Proof.
  intros Hn. unfold slice, relative_index.
  replace (0 <? 0) with false by reflexivity.
  destruct (n <? 0) eqn:E; [apply Z.ltb_lt in E; lia|].
  rewrite (Z.min_l 0) by lia. cbn [Z.to_nat skipn]. rewrite Z.sub_0_r.
  destruct (Z.le_ge_cases n (Z.of_nat (length l))) as [Hle | Hge].
  - rewrite Z.min_l by lia. reflexivity.
  - rewrite Z.min_r by lia. rewrite Nat2Z.id.
    rewrite firstn_all. symmetry. apply firstn_all2. lia.
Qed.

Lemma splice_one_in_bounds {A : Type} (l : list A) (i : nat) :
  (i < length l)%nat ->
  splice l (Z.of_nat i) 1 = (firstn i l ++ skipn (S i) l)%list.
Proof.
  intros Hi. unfold splice, relative_index.
  destruct (Z.of_nat i <? 0) eqn:E; [apply Z.ltb_lt in E; lia|].
  rewrite (Z.min_l (Z.of_nat i)) by lia.
  rewrite (Z.max_l 1 0) by lia. rewrite Z.min_l by lia.
  rewrite Nat2Z.id. replace (Z.to_nat (Z.of_nat i + 1)) with (S i) by lia.
  reflexivity.
Qed.

Lemma splice_one_out_of_bounds {A : Type} (l : list A) (i : nat) :
  (length l <= i)%nat -> splice l (Z.of_nat i) 1 = l.
Proof.
  intros Hi. unfold splice, relative_index.
  destruct (Z.of_nat i <? 0) eqn:E; [apply Z.ltb_lt in E; lia|].
  rewrite (Z.min_r (Z.of_nat i)) by lia.
  rewrite Z.sub_diag. rewrite (Z.max_l 1 0) by lia. rewrite Z.min_r by lia.
  rewrite Z.add_0_r, Nat2Z.id, firstn_all, skipn_all, app_nil_r.
  reflexivity.
Qed.

(* ================================================================= *)
(** ** The history log *)

Lemma addToHistory_run now originalText rewrittenText prompt w :
  0 <= maxHistoryItems (settings w) ->
  addToHistory now originalText rewrittenText prompt w
  = (Normal tt, appended now originalText rewrittenText prompt w).
Proof.
  intros HN. unfold addToHistory, appended, history. run.
  match goal with |- context [Z.gtb ?a ?b] => destruct (Z.gtb_spec a b) as [Hgt | Hle] end;
    cbn.
  - rewrite slice_from_0 by assumption. reflexivity.
  - rewrite firstn_all2; [reflexivity|]. cbn [length]. lia.
Qed.

Lemma appends_run (calls : list Append) : forall w,
  0 <= maxHistoryItems (settings w) ->
  calls <> [] ->
  result (appends calls) w = Normal tt /\
  settings (exec (appends calls) w)
  = with_rewriteHistory
      (firstn (Z.to_nat (maxHistoryItems (settings w)))
         (rev (map (item w) calls) ++ history w))
      (settings w).
Proof.
  induction calls as [|c rest IH]; intros w HN Hne; [congruence|].
  unfold exec, result. cbn [appends]. unfold bind.
  rewrite addToHistory_run by assumption.
  set (w1 := appended _ _ _ _ w).
  assert (H1 : settings w1
               = with_rewriteHistory
                   (firstn (Z.to_nat (maxHistoryItems (settings w)))
                      (item w c :: history w)) (settings w)) by reflexivity.
  destruct rest as [|c' rest'].
  - cbn. split; [reflexivity | exact H1].
  - assert (Hmax : maxHistoryItems (settings w1) = maxHistoryItems (settings w))
      by reflexivity.
    assert (Hh : history w1
                 = firstn (Z.to_nat (maxHistoryItems (settings w)))
                     (item w c :: history w)) by reflexivity.
    assert (Hitem : forall a, item w1 a = item w a) by reflexivity.
    assert (Hs : forall X, with_rewriteHistory X (settings w1)
                           = with_rewriteHistory X (settings w))
      by reflexivity.
    destruct (IH w1) as (R & H); [rewrite Hmax; exact HN | discriminate |].
    unfold exec, result in R, H. split; [exact R|].
    rewrite H, Hmax, Hh, Hs, (map_ext _ _ Hitem). f_equal.
    set (n := Z.to_nat _).
    set (l := rev (map (item w) (c' :: rest'))).
    change (rev (map (item w) (c :: c' :: rest'))) with (l ++ [item w c])%list.
    rewrite <- app_assoc. cbn [app].
    rewrite !firstn_app. f_equal.
    rewrite firstn_firstn. f_equal. apply Nat.min_l. lia.
Qed.

Lemma with_rewriteHistory_same (s : GeminiRewriteSettings) :
  with_rewriteHistory (rewriteHistory s) s = s.
Proof. destruct s; reflexivity. Qed.

(** C1. With [maxHistoryItems = N >= 0], after the [k]-th append of any
    sequence of appends (from any log) the log has at most [N] records and
    holds the [N] most recently added ones, the newest first, in front of
    what is left of the records it started with; with [N = 0] it is empty,
    and where it was empty before, the settings are what they were. *)
Theorem history_bounded_newest_first (w : World) (calls : list Append)
  (k : nat) :
  0 <= maxHistoryItems (settings w) ->
  (0 < k <= length calls)%nat ->
  let N := maxHistoryItems (settings w) in
  let w' := exec (appends (firstn k calls)) w in
  result (appends (firstn k calls)) w = Normal tt /\
  maxHistoryItems (settings w') = N /\
  Z.of_nat (length (history w')) <= N /\
  history w'
  = firstn (Z.to_nat N) (rev (map (item w) (firstn k calls)) ++ history w) /\
  (N = 0 -> history w' = []) /\
  (N = 0 -> history w = [] -> settings w' = settings w).
Proof.
  intros HN Hk N w'.
  assert (Hne : firstn k calls <> []).
  { intros E. apply (f_equal (@length _)) in E.
    rewrite length_firstn in E. cbn in E. lia. }
  destruct (appends_run (firstn k calls) w HN Hne) as (R & S).
  fold w' in S.
  assert (H : history w'
              = firstn (Z.to_nat N)
                  (rev (map (item w) (firstn k calls)) ++ history w))
    by (unfold history at 1; rewrite S; reflexivity).
  repeat split.
  - exact R.
  - rewrite S. reflexivity.
  - rewrite H, length_firstn. lia.
  - exact H.
  - intros E. rewrite H, E. reflexivity.
  - intros E Hempty. rewrite S. fold N. rewrite E. cbn [Z.to_nat firstn].
    unfold history in Hempty. rewrite <- Hempty.
    apply with_rewriteHistory_same.
Qed.

Lemma history_bounded_newest_first_witness :
  map originalText (history (exec (appends three_appends) (world_keeping 2)))
  = ["c"; "b"]
  /\ history (exec (appends three_appends) (world_keeping 0)) = []
  /\ settings (exec (appends three_appends) (world_keeping 0))
     = settings (world_keeping 0).
Proof.
  split; [|split].
  - destruct (history_bounded_newest_first (world_keeping 2) three_appends 3)
      as (_ & _ & _ & H & _); [cbn; lia | cbn; lia |].
    exact (f_equal (map originalText) H).
  - destruct (history_bounded_newest_first (world_keeping 0) three_appends 3)
      as (_ & _ & _ & _ & H & _); [cbn; lia | cbn; lia |].
    exact (H eq_refl).
  - destruct (history_bounded_newest_first (world_keeping 0) three_appends 3)
      as (_ & _ & _ & _ & _ & H); [cbn; lia | cbn; lia |].
    exact (H eq_refl eq_refl).
Defined.

Lemma nth_error_without (index : nat) (h : list RewriteHistoryItem) (j : nat) :
  nth_error (without index h) j
  = if (index <? length h)%nat
    then if (j <? index)%nat then nth_error h j else nth_error h (S j)
    else nth_error h j.
Proof.
  unfold without. destruct (Nat.ltb_spec index (length h)) as [Hin | Hout];
    [|reflexivity].
  rewrite nth_error_app, length_firstn, Nat.min_l by lia.
  destruct (Nat.ltb_spec j index) as [Hj | Hj].
  - rewrite nth_error_firstn. apply Nat.ltb_lt in Hj. rewrite Hj. reflexivity.
  - rewrite nth_error_skipn. f_equal. lia.
Qed.

Lemma deleteBtn_click_settings (w : World) (index : nat) :
  settings (exec (deleteBtn_click index) w)
  = with_rewriteHistory (without index (history w)) (settings w).
Proof.
  assert (E : splice (history w) (Z.of_nat index) 1 = without index (history w)).
  { unfold without.
    destruct (Nat.ltb_spec index (length (history w))) as [Hin | Hout].
    - apply splice_one_in_bounds. exact Hin.
    - apply splice_one_out_of_bounds. exact Hout. }
  rewrite <- E. reflexivity.
Qed.

Lemma length_without (index : nat) (h : list RewriteHistoryItem) :
  length (without index h)
  = if (index <? length h)%nat then pred (length h) else length h.
Proof.
  unfold without.
  destruct (Nat.ltb_spec index (length h)) as [Hin | Hout]; [|reflexivity].
  rewrite length_app, length_firstn, length_skipn. lia.
Qed.

(** C8. The Delete handler made for position [index] removes the record at
    that position and no other when [index] is within the log, the records
    before it keeping their positions and those after it moving up by one
    in the same order; for an [index] at or past the end the log is what it
    was.  Either way the handler ends without an error. *)
Theorem removeAt_one_or_none (w : World) (index : nat) :
  let h := history w in
  let w' := exec (deleteBtn_click index) w in
  result (deleteBtn_click index) w = Normal tt
  /\ settings w' = with_rewriteHistory (without index h) (settings w)
  /\ history w' = without index h
  /\ length (history w')
     = (if (index <? length h)%nat then pred (length h) else length h)
  /\ (forall j : nat,
        nth_error (history w') j
        = if (index <? length h)%nat
          then if (j <? index)%nat then nth_error h j else nth_error h (S j)
          else nth_error h j).
Proof.
  intros h w'.
  assert (S : settings w'
              = with_rewriteHistory (without index h) (settings w))
    by apply deleteBtn_click_settings.
  assert (H : history w' = without index h)
    by (unfold history at 1; rewrite S; reflexivity).
  repeat split.
  - exact S.
  - exact H.
  - rewrite H. apply length_without.
  - intros j. rewrite H. apply nth_error_without.
Qed.

(* ================================================================= *)
(** ** Property reads *)

Lemma member_defined v key w :
  nullish v = false -> member v key w = (Normal (get_property v key), w).
Proof. destruct v; intros H; try discriminate; reflexivity. Qed.

Lemma element0_defined v w :
  nullish v = false -> element0 v w = (Normal (get_index0 v), w).
Proof. destruct v; intros H; try discriminate; reflexivity. Qed.

Lemma optional_defined v access :
  nullish v = false -> optional v access = access v.
Proof. destruct v; intros H; try discriminate; reflexivity. Qed.

Lemma optional_nullish v access :
  nullish v = true -> optional v access = VUndefined.
Proof. destruct v; intros H; try discriminate; reflexivity. Qed.

(** once the check [candidates?.[0]?.content?.parts?.[0]?.text] has passed,
    [candidates[0].content.parts[0].text] reads the same value *)
Lemma checked_path_reads (candidates : JsValue) (w : World) :
  truthy (candidate_text candidates) = true ->
  (candidate <- element0 candidates ;;
   content <- member candidate "content" ;;
   parts <- member content "parts" ;;
   part <- element0 parts ;;
   member part "text") w
  = (Normal (candidate_text candidates), w).
Proof.
  unfold candidate_text, bind. intros H.
  destruct (nullish candidates) eqn:E0.
  { rewrite (optional_nullish candidates) in H by assumption. discriminate. }
  rewrite (optional_defined candidates) in * by assumption.
  rewrite element0_defined by assumption.
  destruct (nullish (get_index0 candidates)) eqn:E1.
  { rewrite (optional_nullish (get_index0 candidates)) in H by assumption.
    discriminate. }
  rewrite (optional_defined (get_index0 candidates)) in * by assumption.
  rewrite member_defined by assumption.
  set (content := get_property (get_index0 candidates) "content") in *.
  destruct (nullish content) eqn:E2.
  { rewrite (optional_nullish content) in H by assumption. discriminate. }
  rewrite (optional_defined content) in * by assumption.
  rewrite member_defined by assumption.
  set (parts := get_property content "parts") in *.
  destruct (nullish parts) eqn:E3.
  { rewrite (optional_nullish parts) in H by assumption. discriminate. }
  rewrite (optional_defined parts) in * by assumption.
  rewrite element0_defined by assumption.
  destruct (nullish (get_index0 parts)) eqn:E4.
  { rewrite (optional_nullish (get_index0 parts)) in H by assumption.
    discriminate. }
  rewrite (optional_defined (get_index0 parts)) in * by assumption.
  rewrite member_defined by assumption.
  reflexivity.
Qed.

(* ================================================================= *)
(** ** The rewrite engine *)

Lemma callGeminiAPI_response_run (fetched : Settled Response) (w : World) :
  callGeminiAPI_response fetched w
  = (callGeminiAPI_outcome fetched,
     with_abortController None
       match callGeminiAPI_outcome fetched with
       | Normal _ => w
       | Throw e => logged [ConsoleError console_label e] w
       end).
Proof.
  unfold callGeminiAPI_response, callGeminiAPI_outcome, try_finally, try_catch.
  destruct fetched as [response | e]; [|reflexivity].
  unfold bind at 1. cbn [await ret].
  unfold bind at 1.
  destruct (ok response) eqn:Eok; cbn [negb];
    [|unfold upstream_error, bind, pure, throw;
      destruct (ToString _); reflexivity].
  cbn [ret]. unfold bind at 1.
  destruct (json response) as [data | e]; [|reflexivity].
  cbn [await ret].
  unfold bind at 1.
  destruct (nullish data) eqn:En.
  { destruct data; try discriminate; reflexivity. }
  rewrite member_defined by assumption.
  assert (Hout :
    (if truthy (candidate_text (get_property data "candidates"))
     then Normal (candidate_text (get_property data "candidates"))
     else Throw (Error invalid_response_message))
    = match data with
      | VUndefined => Throw (TypeError_read "undefined" "candidates")
      | VNull => Throw (TypeError_read "null" "candidates")
      | _ => if truthy (candidate_text (get_property data "candidates"))
             then Normal (candidate_text (get_property data "candidates"))
             else Throw (Error invalid_response_message)
      end) by (destruct data; try discriminate; reflexivity).
  cbv zeta. rewrite <- Hout. clear Hout.
  destruct (truthy (candidate_text (get_property data "candidates"))) eqn:Et;
    cbn [negb]; [|reflexivity].
  unfold bind at 1. rewrite member_defined by assumption.
  rewrite checked_path_reads by assumption. reflexivity.
Qed.

Lemma addToHistory_normal now originalText rewrittenText prompt w :
  addToHistory now originalText rewrittenText prompt w
  = (Normal tt, exec (addToHistory now originalText rewrittenText prompt) w).
Proof.
  unfold addToHistory. run.
  match goal with |- context [Z.gtb ?a ?b] => destruct (Z.gtb a b) end;
    reflexivity.
Qed.

Lemma rewriteWithGemini_catch_normal (error : JsError) (w : World) :
  rewriteWithGemini_catch error w
  = (Normal tt,
     if String.eqb (name error) "AbortError" then w
     else logged
            [ConsoleError console_label error;
             Notice ("Error: " ++
                     (if truthy_string (message error) then message error
                      else "Failed to rewrite text"))] w).
Proof.
  unfold rewriteWithGemini_catch, logged.
  destruct (String.eqb (name error) "AbortError"); cbn [negb]; [reflexivity|].
  run. rewrite <- app_assoc. reflexivity.
Qed.

Lemma rewriteWithGemini_response_run now p fetched w :
  rewriteWithGemini_response now p fetched w
  = (Normal tt,
     match callGeminiAPI_outcome fetched with
     | Normal rewrittenText => rewritten_world now p rewrittenText w
     | Throw error => failed_world error w
     end).
Proof.
  unfold rewriteWithGemini_response, rewriteWithGemini_try, try_finally,
    try_catch.
  unfold bind at 1. rewrite callGeminiAPI_response_run.
  destruct (callGeminiAPI_outcome fetched) as [v | e].
  - unfold rewritten_world, emit, bind, modify, get, ret. cbv beta iota.
    rewrite addToHistory_normal. unfold logged. cbn.
    rewrite <- app_assoc. reflexivity.
  - unfold failed_world, exec. rewrite rewriteWithGemini_catch_normal.
    reflexivity.
Qed.

Lemma history_logged l w : history (logged l w) = history w.
Proof. reflexivity. Qed.

Lemma history_failed_world error w : history (failed_world error w) = history w.
Proof.
  unfold failed_world, exec. rewrite rewriteWithGemini_catch_normal.
  cbn [snd]. destruct (String.eqb (name error) "AbortError"); reflexivity.
Qed.

Lemma settings_failed_world error w :
  settings (failed_world error w) = settings w.
Proof.
  unfold failed_world, exec. rewrite rewriteWithGemini_catch_normal.
  cbn [snd]. destruct (String.eqb (name error) "AbortError"); reflexivity.
Qed.

Lemma effects_failed_world error w :
  effects (failed_world error w)
  = (effects w ++
     ConsoleError console_label error ::
     (if String.eqb (name error) "AbortError" then []
      else [ConsoleError console_label error;
            Notice ("Error: " ++
                    (if truthy_string (message error) then message error
                     else "Failed to rewrite text"))])
     ++ [SetText ""])%list.
Proof.
  unfold failed_world, exec. rewrite rewriteWithGemini_catch_normal.
  cbn [snd]. destruct (String.eqb (name error) "AbortError"); cbn;
    repeat rewrite <- app_assoc; reflexivity.
Qed.

Lemma emitted_app {A} (m : M A) (w : World) (l : list Effect) :
  effects (exec m w) = (effects w ++ l)%list -> emitted m w = l.
Proof.
  unfold emitted. intros E. rewrite E.
  rewrite skipn_app, skipn_all, Nat.sub_diag. reflexivity.
Qed.

Lemma truthy_string_false (s : string) : truthy_string s = false <-> s = "".
Proof. destruct s; cbn; split; intros H; congruence. Qed.

Lemma truthy_string_true (s : string) : truthy_string s = true <-> s <> "".
Proof. destruct s; cbn; split; intros H; congruence. Qed.

Lemma callGeminiAPI_request_run (text : string) (w : World) :
  callGeminiAPI_request text w
  = if truthy_string (apiKey w)
    then (Normal (created w), logged [request text w] (tracking_new w))
    else (Throw (Error missing_key_message), tracking_new w).
Proof.
  unfold callGeminiAPI_request. run.
  change (apiKey _) with (apiKey w).
  destruct (truthy_string (apiKey w)); reflexivity.
Qed.

Lemma rewriteWithGemini_request_run (selected : string) (w : World) :
  rewriteWithGemini_request selected w
  = if truthy_string selected then
      if truthy_string (apiKey w) then
        (Normal (Some {| selection := selected; signal := created w |}),
         logged [SetText (loading_text w); request selected w]
           (tracking_new w))
      else
        (Normal None,
         logged [SetText (loading_text w);
                 ConsoleError console_label (Error missing_key_message);
                 Notice ("Error: " ++ missing_key_message);
                 SetText ""]
           (tracking_new w))
    else (Normal None, logged [Notice "No text selected"] w).
Proof.
  unfold rewriteWithGemini_request.
  destruct (truthy_string selected); cbn [negb]; [|reflexivity].
  unfold setLoadingState, rewriteWithGemini_try, try_finally, try_catch,
    attempt, emit, bind, modify, get, ret, throw. cbv beta iota.
  rewrite callGeminiAPI_request_run.
  change (apiKey _) with (apiKey w).
  destruct (truthy_string (apiKey w)).
  - unfold logged. cbn. rewrite <- app_assoc. reflexivity.
  - rewrite rewriteWithGemini_catch_normal. unfold logged. cbn.
    repeat rewrite <- app_assoc. reflexivity.
Qed.

Lemma emitted_logged {A} (m : M A) (w w0 : World) (l : list Effect) :
  exec m w = logged l w0 -> effects w0 = effects w -> emitted m w = l.
Proof.
  intros E H. apply emitted_app. rewrite E. unfold logged. cbn.
  rewrite H. reflexivity.
Qed.

(* ================================================================= *)
(** ** Empty selection *)

(** C7. Called on an empty selection, [rewriteWithGemini] returns at once:
    its only act is the notice "No text selected"; no request is issued,
    the settings and with them the history log are what they were, and
    [callGeminiAPI] has not run (no controller was created or tracked). *)
Theorem empty_selection_no_request (w : World) (now : Z)
  (fetched : Settled Response) :
  let w' := exec (rewriteWithGemini_request "") w in
  result (rewriteWithGemini_request "") w = Normal None
  /\ emitted (rewriteWithGemini_request "") w = [Notice "No text selected"]
  /\ existsb is_Fetch (emitted (rewriteWithGemini_request "") w) = false
  /\ history w' = history w
  /\ settings w' = settings w
  /\ abortController w' = abortController w
  /\ created w' = created w
  /\ rewriteWithGemini now "" fetched w
     = (Normal tt, exec (rewriteWithGemini_request "") w).
Proof.
  intros w'. unfold w', exec, result, emitted, rewriteWithGemini, bind.
  rewrite rewriteWithGemini_request_run. cbn [truthy_string fst snd].
  repeat split; try reflexivity.
  - unfold logged. cbn. rewrite skipn_app, skipn_all, Nat.sub_diag.
    reflexivity.
  - unfold logged. cbn. rewrite skipn_app, skipn_all, Nat.sub_diag.
    reflexivity.
Qed.

(* ================================================================= *)
(** ** The credential *)

(** With [useEnvApiKey] on, no [GEMINI_API_KEY] in the environment and a
    key in the settings, the specification's credential is empty, yet the
    call does not fail: it sends the request with the key of the settings. *)
Lemma env_credential_falls_back :
  spec_effective_credential keyed_world = ""
  /\ apiKey keyed_world <> spec_effective_credential keyed_world
  /\ result (callGeminiAPI_request "hello") keyed_world = Normal 0%nat
  /\ existsb is_Fetch (emitted (callGeminiAPI_request "hello") keyed_world)
     = true.
Proof.
  split; [reflexivity|]. split; [discriminate|].
  split; reflexivity.
Qed.

(** C3, amended. The effective credential is [GEMINI_API_KEY] of the
    environment when [useEnvApiKey] is on and that variable is set and not
    empty, and the key of the settings otherwise.  When it is empty,
    [callGeminiAPI] throws the missing-key error without any call on a
    collaborator, and [rewriteWithGemini] issues no request; when it is
    not, the one request carries it. *)
Theorem credential_checked_before_request (w : World) (text : string) :
  apiKey w
  = match GEMINI_API_KEY w with
    | Some k =>
        if useEnvApiKey (settings w) && negb (String.eqb k "") then k
        else geminiApiKey (settings w)
    | None => geminiApiKey (settings w)
    end
  /\ (apiKey w = "" ->
      result (callGeminiAPI_request text) w = Throw (Error missing_key_message)
      /\ emitted (callGeminiAPI_request text) w = []
      /\ result (rewriteWithGemini_request text) w = Normal None
      /\ existsb is_Fetch (emitted (rewriteWithGemini_request text) w) = false)
  /\ (apiKey w <> "" ->
      emitted (callGeminiAPI_request text) w = [request text w]).
Proof.
  split; [|split].
  - unfold apiKey. destruct (useEnvApiKey (settings w)); cbn [andb].
    + destruct (GEMINI_API_KEY w) as [[|c k]|]; reflexivity.
    + destruct (GEMINI_API_KEY w); reflexivity.
  - intros E. apply truthy_string_false in E.
    unfold result, emitted, exec.
    rewrite callGeminiAPI_request_run, rewriteWithGemini_request_run, E.
    repeat split; try reflexivity.
    + cbn. rewrite skipn_all. reflexivity.
    + destruct (truthy_string text); reflexivity.
    + destruct (truthy_string text); unfold logged; cbn;
        rewrite skipn_app, skipn_all, Nat.sub_diag; reflexivity.
  - intros E. apply truthy_string_true in E.
    unfold emitted, exec. rewrite callGeminiAPI_request_run, E.
    unfold logged. cbn. rewrite skipn_app, skipn_all, Nat.sub_diag.
    reflexivity.
Qed.

Lemma credential_checked_before_request_witness :
  apiKey fresh_world = ""
  /\ result (callGeminiAPI_request "hello") fresh_world
     = Throw (Error missing_key_message)
  /\ emitted (callGeminiAPI_request "hello") fresh_world = []
  /\ existsb is_Fetch (emitted (rewriteWithGemini_request "hello") fresh_world)
     = false.
Proof.
  split; [reflexivity|].
  destruct (credential_checked_before_request fresh_world "hello")
    as (_ & H & _).
  destruct (H eq_refl) as (H1 & H2 & _ & H4).
  split; [exact H1|]. split; [exact H2 | exact H4].
Defined.

(* ================================================================= *)
(** ** Responses that are not [ok] *)

(** For that response the error [callGeminiAPI] throws does not have the
    message "rate limited": the message is "API request failed: rate
    limited". *)
Lemma rate_limited_message_is_prefixed :
  result (callGeminiAPI_response (Fulfilled rate_limited)) fresh_world
  = Throw (Error "API request failed: rate limited")
  /\ ~ (exists e,
          result (callGeminiAPI_response (Fulfilled rate_limited)) fresh_world
          = Throw e
          /\ message e = "rate limited").
Proof.
  split; [reflexivity|].
  intros (e & H & Hm). cbv in H. inversion H; subst e. discriminate Hm.
Qed.

(** C2, amended. For a response whose status is not 2xx, when
    [error.message] of the parsed body is a non-empty string,
    [callGeminiAPI] throws an [Error] whose message is "API request
    failed: " followed by it; when that value is absent or falsy, as it is
    when the body does not parse, the message is "API request failed:
    Status: " followed by the status code.  [rewriteWithGemini] shows the
    message after "Error: ".  Whatever the body, the settings and the
    history log are left as they were. *)
Theorem upstream_error_message (w : World) (now : Z) (p : Pending)
  (response : Response) :
  ok response = false ->
  let errorData :=
    match json response with Fulfilled d => d | Rejected _ => VNull end in
  (forall m : string,
     error_message errorData = VStr m -> m <> "" ->
     result (callGeminiAPI_response (Fulfilled response)) w
     = Throw (Error ("API request failed: " ++ m))
     /\ emitted (rewriteWithGemini_response now p (Fulfilled response)) w
        = [ConsoleError console_label (Error ("API request failed: " ++ m));
           ConsoleError console_label (Error ("API request failed: " ++ m));
           Notice ("Error: API request failed: " ++ m);
           SetText ""])
  /\ (truthy (error_message errorData) = false ->
      let msg := "API request failed: Status: " ++ string_of_Z (status response) in
      result (callGeminiAPI_response (Fulfilled response)) w
      = Throw (Error msg)
      /\ emitted (rewriteWithGemini_response now p (Fulfilled response)) w
         = [ConsoleError console_label (Error msg);
            ConsoleError console_label (Error msg);
            Notice ("Error: " ++ msg);
            SetText ""])
  /\ settings (exec (rewriteWithGemini_response now p (Fulfilled response)) w)
     = settings w.
Proof.
  intros Hok errorData.
  assert (Hout : callGeminiAPI_outcome (Fulfilled response)
                 = Throw (upstream_error response)).
  { unfold callGeminiAPI_outcome. rewrite Hok. reflexivity. }
  split; [|split].
  - intros m Hm Hne.
    assert (He : upstream_error response
                 = Error ("API request failed: " ++ m)).
    { unfold upstream_error. fold errorData. unfold js_or. rewrite Hm.
      cbn [truthy]. apply truthy_string_true in Hne. rewrite Hne.
      reflexivity. }
    rewrite He in Hout. split.
    + unfold result. rewrite callGeminiAPI_response_run, Hout. reflexivity.
    + apply emitted_app. unfold exec.
      rewrite rewriteWithGemini_response_run, Hout. cbn [snd].
      rewrite effects_failed_world. reflexivity.
  - intros Ht msg.
    assert (He : upstream_error response = Error msg).
    { unfold upstream_error. fold errorData. unfold js_or. rewrite Ht.
      reflexivity. }
    rewrite He in Hout. split.
    + unfold result. rewrite callGeminiAPI_response_run, Hout. reflexivity.
    + apply emitted_app. unfold exec.
      rewrite rewriteWithGemini_response_run, Hout. cbn [snd].
      rewrite effects_failed_world. reflexivity.
  - unfold exec. rewrite rewriteWithGemini_response_run, Hout. cbn [snd].
    apply settings_failed_world.
Qed.

Lemma upstream_error_message_witness :
  ok rate_limited = false
  /\ result (callGeminiAPI_response (Fulfilled rate_limited)) fresh_world
     = Throw (Error "API request failed: rate limited")
  /\ emitted (rewriteWithGemini_response 0
                {| selection := "hello"; signal := 0%nat |}
                (Fulfilled rate_limited)) fresh_world
     = [ConsoleError console_label (Error "API request failed: rate limited");
        ConsoleError console_label (Error "API request failed: rate limited");
        Notice "Error: API request failed: rate limited";
        SetText ""].
Proof.
  split; [reflexivity|].
  destruct (upstream_error_message fresh_world 0
              {| selection := "hello"; signal := 0%nat |} rate_limited
              eq_refl) as (H1 & _).
  exact (H1 "rate limited" eq_refl ltac:(discriminate)).
Defined.

(* ================================================================= *)
(** ** Responses that are [ok] *)

Lemma rewritten_world_settings now p v w :
  0 <= maxHistoryItems (settings w) ->
  settings (rewritten_world now p v w)
  = with_rewriteHistory
      (firstn (Z.to_nat (maxHistoryItems (settings w)))
         (history_record now p v w :: history w))
      (settings w).
Proof.
  intros HN. unfold rewritten_world, exec.
  rewrite addToHistory_run by exact HN. reflexivity.
Qed.

Lemma rewritten_world_effects now p v w :
  0 <= maxHistoryItems (settings w) ->
  effects (rewritten_world now p v w)
  = (effects w ++
     [ReplaceSelection v;
      SaveData (settings (rewritten_world now p v w));
      Notice success_notice;
      SetText ""])%list.
Proof.
  intros HN. unfold rewritten_world, exec.
  rewrite addToHistory_run by exact HN. unfold logged. cbn.
  repeat rewrite <- app_assoc. reflexivity.
Qed.

(** C4. When the response is 200 with the body
    [{"candidates":[{"content":{"parts":[{"text":"Rewritten."}]}}]}],
    [callGeminiAPI] returns "Rewritten."; [rewriteWithGemini] replaces the
    selection with it and appends one record to the log (one [addToHistory],
    so the record goes in front and the log is cut to [maxHistoryItems]),
    the record having "Rewritten." as [rewrittenText] and the text the
    call was made on as [originalText]. *)
Theorem rewritten_and_recorded (w : World) (now : Z) (p : Pending) :
  0 <= maxHistoryItems (settings w) ->
  let N := maxHistoryItems (settings w) in
  let w' := exec (rewriteWithGemini_response now p (ok_200 rewritten_body)) w in
  let record := history_record now p (VStr "Rewritten.") w in
  result (callGeminiAPI_response (ok_200 rewritten_body)) w
  = Normal (VStr "Rewritten.")
  /\ rewrittenText record = VStr "Rewritten."
  /\ originalText record = selection p
  /\ history w' = firstn (Z.to_nat N) (record :: history w)
  /\ (Z.of_nat (length (history w)) < N -> history w' = record :: history w)
  /\ emitted (rewriteWithGemini_response now p (ok_200 rewritten_body)) w
     = [ReplaceSelection (VStr "Rewritten."); SaveData (settings w');
        Notice success_notice; SetText ""]
  /\ (forall selected : string,
        selected <> "" -> apiKey w <> "" ->
        history (exec (rewriteWithGemini now selected (ok_200 rewritten_body)) w)
        = firstn (Z.to_nat N)
            ({| originalText := selected;
                rewrittenText := VStr "Rewritten.";
                prompt := customPrompt (settings w);
                timestamp := now;
                model := selectedModel (settings w) |} :: history w)).
Proof.
  intros HN N w' record.
  assert (Hout : callGeminiAPI_outcome (ok_200 rewritten_body)
                 = Normal (VStr "Rewritten.")) by reflexivity.
  assert (Hw : w' = rewritten_world now p (VStr "Rewritten.") w).
  { unfold w', exec. rewrite rewriteWithGemini_response_run, Hout.
    reflexivity. }
  assert (Hh : history w' = firstn (Z.to_nat N) (record :: history w)).
  { rewrite Hw. unfold history at 1.
    rewrite rewritten_world_settings by exact HN. reflexivity. }
  split; [|split; [|split; [|split; [|split; [|split]]]]].
  - unfold result. rewrite callGeminiAPI_response_run, Hout. reflexivity.
  - reflexivity.
  - reflexivity.
  - exact Hh.
  - intros Hroom. rewrite Hh. apply firstn_all2. cbn [length]. lia.
  - apply emitted_app. fold w'. rewrite Hw.
    apply rewritten_world_effects. exact HN.
  - intros selected Hsel Hkey.
    apply truthy_string_true in Hsel. apply truthy_string_true in Hkey.
    unfold exec, rewriteWithGemini, bind.
    rewrite rewriteWithGemini_request_run, Hsel, Hkey.
    rewrite rewriteWithGemini_response_run, Hout. cbn [snd].
    unfold history at 1. rewrite rewritten_world_settings by exact HN.
    reflexivity.
Qed.

Lemma rewritten_and_recorded_witness :
  0 <= maxHistoryItems (settings keyed_world)
  /\ result (callGeminiAPI_response (ok_200 rewritten_body)) keyed_world
     = Normal (VStr "Rewritten.")
  /\ map (fun r => (originalText r, rewrittenText r))
       (history (exec (rewriteWithGemini 7 "Original." (ok_200 rewritten_body))
                   keyed_world))
     = [("Original.", VStr "Rewritten.")].
Proof.
  split; [cbn; lia|].
  destruct (rewritten_and_recorded keyed_world 7
              {| selection := "Original."; signal := 0%nat |})
    as (H1 & _ & _ & _ & _ & _ & H7); [cbn; lia|].
  split; [exact H1|].
  exact (f_equal (map (fun r => (originalText r, rewrittenText r)))
           (H7 "Original." ltac:(discriminate) ltac:(discriminate))).
Defined.

(** a 2xx response whose body parses to a value for which the check
    [data.candidates?.[0]?.content?.parts?.[0]?.text] is falsy *)
Lemma falsy_text_outcome (response : Response) (data : JsValue) :
  ok response = true ->
  json response = Fulfilled data ->
  nullish data = false ->
  truthy (candidate_text (get_property data "candidates")) = false ->
  callGeminiAPI_outcome (Fulfilled response)
  = Throw (Error invalid_response_message).
Proof.
  intros Hok Hjson Hdata Htext. unfold callGeminiAPI_outcome.
  rewrite Hok, Hjson. cbn [negb].
  destruct data; try discriminate; cbv zeta; rewrite Htext; reflexivity.
Qed.

(** what [rewriteWithGemini] does with an [Error] of [callGeminiAPI] *)
Lemma failed_call (now : Z) (p : Pending) (fetched : Settled Response)
  (msg : string) (w : World) :
  callGeminiAPI_outcome fetched = Throw (Error msg) ->
  let w' := exec (rewriteWithGemini_response now p fetched) w in
  result (callGeminiAPI_response fetched) w = Throw (Error msg)
  /\ history w' = history w
  /\ settings w' = settings w
  /\ emitted (rewriteWithGemini_response now p fetched) w
     = [ConsoleError console_label (Error msg);
        ConsoleError console_label (Error msg);
        Notice ("Error: " ++
                (if truthy_string msg then msg else "Failed to rewrite text"));
        SetText ""].
Proof.
  intros Hout w'.
  assert (Hw : w' = failed_world (Error msg) w).
  { unfold w', exec. rewrite rewriteWithGemini_response_run, Hout.
    reflexivity. }
  split; [|split; [|split]].
  - unfold result. rewrite callGeminiAPI_response_run, Hout. reflexivity.
  - rewrite Hw. apply history_failed_world.
  - rewrite Hw. apply settings_failed_world.
  - apply emitted_app. fold w'. rewrite Hw, effects_failed_world.
    reflexivity.
Qed.

(** C5. When the response is 200 and the [candidates] of its body is the
    empty array, [callGeminiAPI] throws the invalid-response error;
    [rewriteWithGemini] reports it and the history log, like all the
    settings, is what it was. *)
Theorem empty_candidates_malformed (w : World) (now : Z) (p : Pending)
  (data : JsValue) :
  get_property data "candidates" = VArr [] ->
  let w' := exec (rewriteWithGemini_response now p (ok_200 data)) w in
  candidate_text (get_property data "candidates") = VUndefined
  /\ result (callGeminiAPI_response (ok_200 data)) w
     = Throw (Error invalid_response_message)
  /\ history w' = history w
  /\ settings w' = settings w
  /\ emitted (rewriteWithGemini_response now p (ok_200 data)) w
     = [ConsoleError console_label (Error invalid_response_message);
        ConsoleError console_label (Error invalid_response_message);
        Notice ("Error: " ++ invalid_response_message);
        SetText ""].
Proof.
  intros Hc w'.
  assert (Hout : callGeminiAPI_outcome (ok_200 data)
                 = Throw (Error invalid_response_message)).
  { apply (falsy_text_outcome _ data); try reflexivity.
    - destruct data; try reflexivity; discriminate Hc.
    - rewrite Hc. reflexivity. }
  split; [rewrite Hc; reflexivity|].
  exact (failed_call now p (ok_200 data) invalid_response_message w Hout).
Qed.

Lemma empty_candidates_malformed_witness :
  get_property (VObj [("candidates", VArr [])]) "candidates" = VArr []
  /\ result (callGeminiAPI_response (ok_200 (VObj [("candidates", VArr [])])))
       keyed_world
     = Throw (Error invalid_response_message)
  /\ history (exec (rewriteWithGemini_response 7
                      {| selection := "Original."; signal := 0%nat |}
                      (ok_200 (VObj [("candidates", VArr [])])))
                keyed_world)
     = history keyed_world.
Proof.
  split; [reflexivity|].
  destruct (empty_candidates_malformed keyed_world 7
              {| selection := "Original."; signal := 0%nat |}
              (VObj [("candidates", VArr [])]) eq_refl)
    as (_ & H2 & H3 & _).
  split; [exact H2 | exact H3].
Defined.

(** C9. When the response is 200 and its body has the whole path
    [candidates[0].content.parts[0].text] with the empty string there,
    [callGeminiAPI] throws the invalid-response error, as it does when the
    path is absent, and nothing is added to the history log. *)
Theorem empty_text_malformed (w : World) (now : Z) (p : Pending)
  (data : JsValue) :
  candidate_text (get_property data "candidates") = VStr "" ->
  let w' := exec (rewriteWithGemini_response now p (ok_200 data)) w in
  result (callGeminiAPI_response (ok_200 data)) w
  = Throw (Error invalid_response_message)
  /\ history w' = history w
  /\ settings w' = settings w
  /\ emitted (rewriteWithGemini_response now p (ok_200 data)) w
     = [ConsoleError console_label (Error invalid_response_message);
        ConsoleError console_label (Error invalid_response_message);
        Notice ("Error: " ++ invalid_response_message);
        SetText ""].
Proof.
  intros Ht w'.
  assert (Hout : callGeminiAPI_outcome (ok_200 data)
                 = Throw (Error invalid_response_message)).
  { apply (falsy_text_outcome _ data); try reflexivity.
    - destruct data; try reflexivity; discriminate Ht.
    - rewrite Ht. reflexivity. }
  exact (failed_call now p (ok_200 data) invalid_response_message w Hout).
Qed.

Lemma empty_text_malformed_witness :
  candidate_text (get_property empty_text_body "candidates") = VStr ""
  /\ result (callGeminiAPI_response (ok_200 empty_text_body)) keyed_world
     = Throw (Error invalid_response_message)
  /\ history (exec (rewriteWithGemini_response 7
                      {| selection := "Original."; signal := 0%nat |}
                      (ok_200 empty_text_body))
                keyed_world)
     = history keyed_world.
Proof.
  split; [reflexivity|].
  destruct (empty_text_malformed keyed_world 7
              {| selection := "Original."; signal := 0%nat |}
              empty_text_body eq_refl)
    as (H1 & H2 & _).
  split; [exact H1 | exact H2].
Defined.

(* ================================================================= *)
(** ** Cancellation and the tracked controller *)

Lemma cancelOngoingRewrite_run (w : World) :
  cancelOngoingRewrite w
  = (Normal tt,
     match abortController w with
     | Some c =>
         logged [Abort c; SetText ""; Notice cancelOngoingRewrite_notice]
           (with_abortController None w)
     | None => w
     end).
Proof.
  unfold cancelOngoingRewrite, setLoadingState. run.
  destruct (abortController w) as [c|]; [|reflexivity].
  run. unfold logged. cbn. repeat rewrite <- app_assoc. reflexivity.
Qed.

(** C6. When [callGeminiAPI] ends with an error named "AbortError", the
    cancelled outcome, [rewriteWithGemini] makes no notice at all: it only
    clears the status bar (the error having been logged to the console by
    [callGeminiAPI]); the settings and the history log are what they were.
    The cancel command itself leaves the log alone too, and its one notice
    is "Rewrite request cancelled". *)
Theorem cancelled_call_is_quiet (w : World) (now : Z) (p : Pending)
  (fetched : Settled Response) (e : JsError) :
  result (callGeminiAPI_response fetched) w = Throw e ->
  name e = "AbortError" ->
  let w' := exec (rewriteWithGemini_response now p fetched) w in
  result (rewriteWithGemini_response now p fetched) w = Normal tt
  /\ history w' = history w
  /\ settings w' = settings w
  /\ emitted (rewriteWithGemini_response now p fetched) w
     = [ConsoleError console_label e; SetText ""]
  /\ existsb is_Notice (emitted (rewriteWithGemini_response now p fetched) w)
     = false
  /\ history (exec cancelOngoingRewrite w) = history w
  /\ filter is_Notice (emitted cancelOngoingRewrite w)
     = match abortController w with
       | Some _ => [Notice cancelOngoingRewrite_notice]
       | None => []
       end.
Proof.
  intros Hres Hname w'.
  assert (Hout : callGeminiAPI_outcome fetched = Throw e).
  { unfold result in Hres. rewrite callGeminiAPI_response_run in Hres.
    exact Hres. }
  assert (Hw : w' = failed_world e w).
  { unfold w', exec. rewrite rewriteWithGemini_response_run, Hout.
    reflexivity. }
  assert (Hem : emitted (rewriteWithGemini_response now p fetched) w
                = [ConsoleError console_label e; SetText ""]).
  { apply emitted_app. fold w'. rewrite Hw, effects_failed_world, Hname.
    reflexivity. }
  split; [|split; [|split; [|split; [|split; [|split]]]]].
  - unfold result. rewrite rewriteWithGemini_response_run. reflexivity.
  - rewrite Hw. apply history_failed_world.
  - rewrite Hw. apply settings_failed_world.
  - exact Hem.
  - rewrite Hem. reflexivity.
  - unfold exec. rewrite cancelOngoingRewrite_run. cbn [snd].
    destruct (abortController w); reflexivity.
  - unfold emitted, exec. rewrite cancelOngoingRewrite_run. cbn [snd].
    destruct (abortController w); unfold logged; cbn.
    + rewrite skipn_app, skipn_all, Nat.sub_diag. reflexivity.
    + rewrite skipn_all. reflexivity.
Qed.

Lemma cancelled_call_is_quiet_witness :
  result (callGeminiAPI_response (Rejected AbortError)) keyed_world
  = Throw AbortError
  /\ name AbortError = "AbortError"
  /\ emitted (rewriteWithGemini_response 7
                {| selection := "Original."; signal := 0%nat |}
                (Rejected AbortError)) keyed_world
     = [ConsoleError console_label AbortError; SetText ""]
  /\ history (exec (rewriteWithGemini_response 7
                      {| selection := "Original."; signal := 0%nat |}
                      (Rejected AbortError)) keyed_world)
     = history keyed_world.
Proof.
  split; [reflexivity|]. split; [reflexivity|].
  destruct (cancelled_call_is_quiet keyed_world 7
              {| selection := "Original."; signal := 0%nat |}
              (Rejected AbortError) AbortError eq_refl eq_refl)
    as (_ & H2 & _ & H4 & _).
  split; [exact H4 | exact H2].
Defined.

(** C10. When a request completes, however it completes,
    [this.abortController] is [null] afterwards, whichever controller was
    tracked before.  So with two requests started one after the other, the
    second being the tracked one, the completion of the first leaves none
    tracked, and the cancel command, which until then would have aborted
    the second, does nothing at all while the second is still in flight:
    the command aborts no request. *)
Theorem completion_clears_tracked_controller (w : World) (now : Z)
  (p : Pending) (fetched : Settled Response) (s1 s2 : string) :
  s1 <> "" -> s2 <> "" -> apiKey w <> "" ->
  let p1 := {| selection := s1; signal := created w |} in
  let p2 := {| selection := s2; signal := S (created w) |} in
  let w1 := exec (rewriteWithGemini_request s1) w in
  let w2 := exec (rewriteWithGemini_request s2) w1 in
  let w3 := exec (rewriteWithGemini_response now p1 fetched) w2 in
  abortController (exec (rewriteWithGemini_response now p fetched) w) = None
  /\ result (rewriteWithGemini_request s1) w = Normal (Some p1)
  /\ result (rewriteWithGemini_request s2) w1 = Normal (Some p2)
  /\ abortController w1 = Some (signal p1)
  /\ abortController w2 = Some (signal p2)
  /\ signal p1 <> signal p2
  /\ emitted cancelOngoingRewrite w2
     = [Abort (signal p2); SetText ""; Notice cancelOngoingRewrite_notice]
  /\ abortController w3 = None
  /\ cancelOngoingRewrite w3 = (Normal tt, w3)
  /\ existsb is_Abort (emitted cancel_rewrite_command w3) = false.
Proof.
  intros H1 H2 Hkey p1 p2 w1 w2 w3.
  apply truthy_string_true in H1, H2, Hkey.
  assert (Hnone : forall q v, abortController
                      (exec (rewriteWithGemini_response now q fetched) v) = None).
  { intros q v. unfold exec. rewrite rewriteWithGemini_response_run. cbn [snd].
    destruct (callGeminiAPI_outcome fetched) as [t | e].
    - unfold rewritten_world, exec. rewrite addToHistory_normal.
      unfold addToHistory. run.
      match goal with |- context [Z.gtb ?a ?b] => destruct (Z.gtb a b) end;
        reflexivity.
    - unfold failed_world, exec. rewrite rewriteWithGemini_catch_normal.
      cbn [snd]. destruct (String.eqb (name e) "AbortError"); reflexivity. }
  assert (E1 : rewriteWithGemini_request s1 w
               = (Normal (Some p1),
                  logged [SetText (loading_text w); request s1 w]
                    (tracking_new w))).
  { rewrite rewriteWithGemini_request_run, H1, Hkey. reflexivity. }
  assert (Hw1 : w1 = logged [SetText (loading_text w); request s1 w]
                       (tracking_new w)).
  { unfold w1, exec. rewrite E1. reflexivity. }
  assert (E2 : rewriteWithGemini_request s2 w1
               = (Normal (Some p2),
                  logged [SetText (loading_text w1); request s2 w1]
                    (tracking_new w1))).
  { rewrite rewriteWithGemini_request_run, H2.
    replace (apiKey w1) with (apiKey w) by (rewrite Hw1; reflexivity).
    rewrite Hkey. rewrite Hw1. reflexivity. }
  assert (Hw2 : w2 = logged [SetText (loading_text w1); request s2 w1]
                       (tracking_new w1)).
  { unfold w2, exec. rewrite E2. reflexivity. }
  assert (Hc2 : abortController w2 = Some (signal p2)).
  { rewrite Hw2, Hw1. reflexivity. }
  assert (Hc3 : abortController w3 = None) by apply Hnone.
  split; [|split; [|split; [|split; [|split; [|split; [|split; [|split;
    [|split]]]]]]]].
  - apply Hnone.
  - unfold result. rewrite E1. reflexivity.
  - unfold result. rewrite E2. reflexivity.
  - rewrite Hw1. reflexivity.
  - exact Hc2.
  - cbn. lia.
  - unfold emitted, exec. rewrite cancelOngoingRewrite_run, Hc2. cbn [snd].
    unfold logged. cbn. rewrite skipn_app, skipn_all, Nat.sub_diag.
    reflexivity.
  - apply Hnone.
  - rewrite cancelOngoingRewrite_run, Hc3. reflexivity.
  - unfold emitted, exec, cancel_rewrite_command, emit, modify, bind.
    rewrite cancelOngoingRewrite_run. cbn -[w3]. rewrite Hc3.
    cbn [effects with_effects].
    rewrite skipn_app, skipn_all, Nat.sub_diag. reflexivity.
Qed.

Lemma completion_clears_tracked_controller_witness :
  apiKey keyed_world <> ""
  /\ abortController
       (exec (rewriteWithGemini_request "second")
          (exec (rewriteWithGemini_request "first") keyed_world))
     = Some 1%nat
  /\ abortController
       (exec (rewriteWithGemini_response 7
                {| selection := "first"; signal := 0%nat |}
                (ok_200 rewritten_body))
          (exec (rewriteWithGemini_request "second")
             (exec (rewriteWithGemini_request "first") keyed_world)))
     = None.
Proof.
  split; [discriminate|].
  destruct (completion_clears_tracked_controller keyed_world 7
              {| selection := "first"; signal := 0%nat |}
              (ok_200 rewritten_body) "first" "second"
              ltac:(discriminate) ltac:(discriminate) ltac:(discriminate))
    as (_ & _ & _ & _ & H5 & _ & _ & H8 & _).
  split; [exact H5 | exact H8].
Defined.

(* ================================================================= *)
(** ** Further facts about the handlers *)

(** A call that fails for want of a key throws before the [try] whose
    [finally] clears [this.abortController]: the controller it created
    stays tracked, though no request is in flight. *)
Lemma missing_key_leaves_controller_tracked (w : World) (text : string) :
  text <> "" -> apiKey w = "" ->
  abortController (exec (rewriteWithGemini_request text) w)
  = Some (created w).
Proof.
  intros Ht Hk. apply truthy_string_true in Ht.
  apply truthy_string_false in Hk.
  unfold exec. rewrite rewriteWithGemini_request_run, Ht, Hk. reflexivity.
Qed.

(** X7. When the signal is aborted while the body of a response that is not
    [ok] is being read, [response.json()] rejects, the [catch] on it turns
    the rejection into [null], and the call ends with the status error:
    a notice is shown although the request was cancelled. *)
Lemma abort_while_reading_error_body (w : World) (now : Z) (p : Pending)
  (code : Z) :
  (code < 200 \/ 299 < code) ->
  let fetched := Fulfilled {| status := code; json := Rejected AbortError |} in
  emitted (rewriteWithGemini_response now p fetched) w
  = [ConsoleError console_label
       (Error ("API request failed: Status: " ++ string_of_Z code));
     ConsoleError console_label
       (Error ("API request failed: Status: " ++ string_of_Z code));
     Notice ("Error: API request failed: Status: " ++ string_of_Z code);
     SetText ""].
Proof.
  intros Hcode fetched.
  assert (Hok : ok {| status := code; json := Rejected AbortError |} = false).
  { unfold ok. cbn [status]. apply andb_false_iff.
    destruct Hcode; [left; apply Z.leb_gt | right; apply Z.leb_gt];
      assumption. }
  destruct (failed_call now p fetched
              ("API request failed: Status: " ++ string_of_Z code) w)
    as (_ & _ & _ & H).
  - unfold fetched, callGeminiAPI_outcome. rewrite Hok. reflexivity.
  - exact H.
Qed.

(** The slider handler sets the limit and cuts a longer log to its first
    (most recent) records. *)
Lemma maxHistoryItems_onChange_truncates (w : World) (value : Z) :
  0 <= value ->
  let w' := exec (maxHistoryItems_onChange value) w in
  maxHistoryItems (settings w') = value
  /\ history w' = firstn (Z.to_nat value) (history w).
Proof.
  intros Hv w'. unfold w', maxHistoryItems_onChange, history. run.
  match goal with |- context [Z.gtb ?a ?b] => destruct (Z.gtb_spec a b) end;
    cbn; split; try reflexivity.
  - apply slice_from_0. exact Hv.
  - symmetry. apply firstn_all2. lia.
Qed.

Lemma clearAllBtn_click_empties (w : World) :
  history (exec clearAllBtn_click w) = [].
Proof. reflexivity. Qed.

(* ================================================================= *)
(** ** The invariant of the log under every handler *)

Lemma bounded_settings (w w' : World) :
  settings w' = settings w -> bounded w -> bounded w'.
Proof. unfold bounded, history. intros E. rewrite E. exact (fun H => H). Qed.

Lemma bounded_addToHistory now originalText rewrittenText prompt w :
  0 <= maxHistoryItems (settings w) ->
  bounded (exec (addToHistory now originalText rewrittenText prompt) w).
Proof.
  intros HN. unfold exec. rewrite addToHistory_run by exact HN.
  unfold bounded, history, appended. cbn. split; [exact HN|].
  rewrite length_firstn. lia.
Qed.

Lemma bounded_deleteBtn_click (index : nat) (w : World) :
  bounded w -> bounded (exec (deleteBtn_click index) w).
Proof.
  intros (HN & Hlen). unfold bounded, history.
  rewrite deleteBtn_click_settings.
  cbn [maxHistoryItems with_rewriteHistory rewriteHistory].
  split; [exact HN|]. rewrite length_without.
  destruct (index <? length (history w))%nat; lia.
Qed.

Lemma bounded_clearAllBtn_click (w : World) :
  bounded w -> bounded (exec clearAllBtn_click w).
Proof. intros (HN & _). split; [exact HN | cbn; lia]. Qed.

Lemma bounded_maxHistoryItems_onChange (value : Z) (w : World) :
  0 <= value -> bounded (exec (maxHistoryItems_onChange value) w).
Proof.
  intros Hv.
  destruct (maxHistoryItems_onChange_truncates w value Hv) as (M & H).
  unfold bounded. rewrite M, H, length_firstn. split; [exact Hv | lia].
Qed.

Lemma bounded_rewriteWithGemini_request (selected : string) (w : World) :
  bounded w -> bounded (exec (rewriteWithGemini_request selected) w).
Proof.
  apply bounded_settings. unfold exec.
  rewrite rewriteWithGemini_request_run.
  destruct (truthy_string selected), (truthy_string (apiKey w)); reflexivity.
Qed.

Lemma bounded_rewriteWithGemini_response now p fetched (w : World) :
  bounded w -> bounded (exec (rewriteWithGemini_response now p fetched) w).
Proof.
  intros (HN & Hlen). unfold exec. rewrite rewriteWithGemini_response_run.
  cbn [snd]. destruct (callGeminiAPI_outcome fetched) as [v | e].
  - unfold bounded, history.
    rewrite rewritten_world_settings by exact HN.
    cbn [maxHistoryItems with_rewriteHistory rewriteHistory].
    split; [exact HN|]. rewrite length_firstn. lia.
  - apply (bounded_settings w); [apply settings_failed_world|].
    split; assumption.
Qed.

Lemma bounded_cancelOngoingRewrite (w : World) :
  bounded w -> bounded (exec cancelOngoingRewrite w).
Proof.
  apply bounded_settings. unfold exec. rewrite cancelOngoingRewrite_run.
  cbn [snd]. destruct (abortController w); reflexivity.
Qed.

(* ================================================================= *)
(** ** Every handler, one step at a time *)

Lemma rewritten_world_trace now p v w :
  effects (rewritten_world now p v w)
  = (effects w ++
     [ReplaceSelection v;
      SaveData (settings (rewritten_world now p v w));
      Notice success_notice;
      SetText ""])%list.
Proof.
  unfold rewritten_world, exec, addToHistory. run.
  match goal with |- context [Z.gtb ?a ?b] => destruct (Z.gtb a b) end;
    unfold logged; cbn; repeat rewrite <- app_assoc; reflexivity.
Qed.

Lemma last_saved_app s l1 l2 :
  last_saved s (l1 ++ l2) = last_saved (last_saved s l1) l2.
Proof. unfold last_saved. apply fold_left_app. Qed.

Lemma filter_length_app {A} (f : A -> bool) (l1 l2 : list A) :
  length (filter f (l1 ++ l2))
  = (length (filter f l1) + length (filter f l2))%nat.
Proof. rewrite filter_app, length_app. reflexivity. Qed.

(** what one event adds to the trace: it only appends; it asks for at most
    one request, and for none unless it is the rewrite command; and what
    it last saved, if it saved, is the settings it leaves, which are the
    old ones if it did not *)
Lemma handle_step (e : Event) (w : World) :
  exists l : list Effect,
    handle e w = (Normal tt, exec (handle e) w)
    /\ effects (exec (handle e) w) = (effects w ++ l)%list
    /\ last_saved (settings w) l = settings (exec (handle e) w)
    /\ (length (filter is_Fetch l)
        <= if is_RewriteCommand e then 1 else 0)%nat.
Proof.
  destruct e as [selected | now p fetched | | | index | | b | k | m | q | v | ];
    cbn [handle is_RewriteCommand].
  - (* RewriteCommand *)
    unfold exec, bind. rewrite rewriteWithGemini_request_run.
    destruct (truthy_string selected); [destruct (truthy_string (apiKey w))|];
      eexists; (split; [reflexivity|]); (split; [reflexivity|]);
      split; [reflexivity | cbn; lia | reflexivity | cbn; lia
             | reflexivity | cbn; lia].
  - (* Settle *)
    unfold exec. rewrite rewriteWithGemini_response_run. cbn [snd].
    destruct (callGeminiAPI_outcome fetched) as [t | err].
    + eexists. split; [reflexivity|].
      split; [apply rewritten_world_trace|]. split; [reflexivity | cbn; lia].
    + eexists. split; [reflexivity|].
      split; [apply effects_failed_world|].
      rewrite settings_failed_world.
      destruct (String.eqb (name err) "AbortError");
        (split; [reflexivity | cbn; lia]).
  - (* CancelCommand *)
    unfold exec, cancel_rewrite_command, emit, modify, bind.
    rewrite cancelOngoingRewrite_run.
    destruct (abortController w) as [c|] eqn:Ec; cbn; rewrite Ec.
    + exists [Notice "Attempting to cancel ongoing rewrite request";
              Abort c; SetText ""; Notice cancelOngoingRewrite_notice].
      unfold logged. cbn. rewrite <- app_assoc.
      repeat split; cbn; lia.
    + exists [Notice "Attempting to cancel ongoing rewrite request"].
      repeat split; cbn; lia.
  - (* HistoryCommand *)
    unfold exec, showRewriteHistory. run.
    destruct (length (rewriteHistory (settings w)) =? 0)%nat;
      eexists; repeat split; cbn; lia.
  - exists [SaveData (settings (exec (deleteBtn_click index) w));
            ModalClose; ModalOpen; Notice "History item deleted"].
    unfold exec, deleteBtn_click. run. repeat rewrite <- app_assoc.
    repeat split; cbn; lia.
  - exists [SaveData (settings (exec clearAllBtn_click w));
            ModalClose; Notice "History cleared"].
    unfold exec, clearAllBtn_click. run. repeat rewrite <- app_assoc.
    repeat split; cbn; lia.
  - exists [SaveData (settings (exec (useEnvApiKey_onChange b) w))].
    repeat split; cbn; lia.
  - exists [SaveData (settings (exec (geminiApiKey_onChange k) w))].
    repeat split; cbn; lia.
  - exists [SaveData (settings (exec (selectedModel_onChange m) w))].
    repeat split; cbn; lia.
  - exists [SaveData (settings (exec (customPrompt_onChange q) w))].
    repeat split; cbn; lia.
  - exists [SaveData (settings (exec (maxHistoryItems_onChange v) w))].
    unfold exec, maxHistoryItems_onChange. run.
    match goal with |- context [Z.gtb ?a ?b] => destruct (Z.gtb a b) end;
      repeat split; cbn; lia.
  - exists [SaveData (settings (exec clearHistoryBtn_click w));
            Notice "History cleared"].
    unfold exec, clearHistoryBtn_click. run. repeat rewrite <- app_assoc.
    repeat split; cbn; lia.
Qed.

Lemma bounded_handle (e : Event) (w : World) :
  in_range e -> bounded w -> bounded (exec (handle e) w).
Proof.
  destruct e as [selected | now p fetched | | | index | | b | k | m | q | v | ];
    cbn [handle in_range]; intros Hr Hb.
  - apply (bounded_settings w); [|exact Hb].
    unfold exec, bind. rewrite rewriteWithGemini_request_run.
    destruct (truthy_string selected), (truthy_string (apiKey w)); reflexivity.
  - apply bounded_rewriteWithGemini_response. exact Hb.
  - apply (bounded_settings w); [|exact Hb].
    unfold exec, cancel_rewrite_command, emit, modify, bind.
    rewrite cancelOngoingRewrite_run. cbn.
    destruct (abortController w); reflexivity.
  - apply (bounded_settings w); [|exact Hb].
    unfold exec, showRewriteHistory. run.
    destruct (length (rewriteHistory (settings w)) =? 0)%nat; reflexivity.
  - apply bounded_deleteBtn_click. exact Hb.
  - apply bounded_clearAllBtn_click. exact Hb.
  - exact Hb.
  - exact Hb.
  - exact Hb.
  - exact Hb.
  - apply bounded_maxHistoryItems_onChange. lia.
  - destruct Hb as (HN & _). split; [exact HN | cbn; lia].
Qed.

(** X14. In every run of the plugin, whatever the events and their order,
    the history log never holds more records than [maxHistoryItems] allows
    once it did not at the start. *)
Theorem log_bounded_in_every_run (events : list Event) : forall w : World,
  Forall in_range events -> bounded w -> bounded (run events w).
Proof.
  induction events as [|e rest IH]; intros w Hr Hb; [exact Hb|].
  inversion Hr as [|? ? He Hrest]; subst. cbn [run].
  apply IH; [exact Hrest|]. apply bounded_handle; assumption.
Qed.

Lemma log_bounded_in_every_run_witness :
  map originalText (history (run busy_day fresh_world)) = ["two"]
  /\ bounded (run busy_day fresh_world).
Proof.
  split; [reflexivity|].
  apply (log_bounded_in_every_run busy_day fresh_world).
  - repeat constructor; cbn; lia.
  - split; cbn; lia.
Defined.

(** X15. In every run, once a handler has returned, the settings last
    handed to [saveData] are the settings the plugin holds: no handler
    changes them without saving them afterwards. *)
Theorem saved_settings_follow_memory (events : list Event) :
  forall (w : World) (s0 : GeminiRewriteSettings),
  last_saved s0 (effects w) = settings w ->
  last_saved s0 (effects (run events w)) = settings (run events w).
Proof.
  induction events as [|e rest IH]; intros w s0 H; [exact H|].
  cbn [run]. apply IH.
  destruct (handle_step e w) as (l & _ & Hl & Hs & _).
  rewrite Hl, last_saved_app, H. exact Hs.
Qed.

Lemma saved_settings_follow_memory_witness :
  last_saved (settings fresh_world) (effects fresh_world) = settings fresh_world
  /\ last_saved (settings fresh_world) (effects (run busy_day fresh_world))
     = settings (run busy_day fresh_world).
Proof.
  split; [reflexivity|].
  apply (saved_settings_follow_memory busy_day fresh_world
           (settings fresh_world) eq_refl).
Defined.

(** X19. In every run, the requests sent are at most as many as the rewrite
    commands run: settling, cancelling and the other handlers send none,
    and no request is ever sent again. *)
Theorem no_request_without_command (events : list Event) : forall w : World,
  (length (filter is_Fetch (effects (run events w)))
   <= length (filter is_Fetch (effects w))
      + length (filter is_RewriteCommand events))%nat.
Proof.
  induction events as [|e rest IH]; intros w; [cbn; lia|].
  cbn [run filter]. specialize (IH (exec (handle e) w)).
  destruct (handle_step e w) as (l & _ & Hl & _ & Hf).
  rewrite Hl, filter_length_app in IH.
  destruct (is_RewriteCommand e); cbn [length]; lia.
Qed.


(* ================================================================= *)
(** ** What a response leads to *)

(** X2. For every response with a 2xx status whose body has a truthy value
    at [candidates[0].content.parts[0].text], [callGeminiAPI] returns that
    value; [rewriteWithGemini] replaces the selection with it, appends one
    record holding it and the selection, saves once and shows the success
    notice. *)
Theorem truthy_text_is_returned_and_recorded (w : World) (now : Z)
  (p : Pending) (response : Response) (data : JsValue) :
  ok response = true ->
  json response = Fulfilled data ->
  truthy (candidate_text (get_property data "candidates")) = true ->
  0 <= maxHistoryItems (settings w) ->
  let text := candidate_text (get_property data "candidates") in
  let w' := exec (rewriteWithGemini_response now p (Fulfilled response)) w in
  result (callGeminiAPI_response (Fulfilled response)) w = Normal text
  /\ history w'
     = firstn (Z.to_nat (maxHistoryItems (settings w)))
         (history_record now p text w :: history w)
  /\ emitted (rewriteWithGemini_response now p (Fulfilled response)) w
     = [ReplaceSelection text; SaveData (settings w');
        Notice success_notice; SetText ""].
Proof.
  intros Hok Hjson Ht HN text w'.
  assert (Hout : callGeminiAPI_outcome (Fulfilled response) = Normal text).
  { unfold callGeminiAPI_outcome. rewrite Hok, Hjson. cbn [negb].
    destruct data; try discriminate Ht; cbv zeta; fold text;
      unfold text at 1; rewrite Ht; reflexivity. }
  assert (Hw : w' = rewritten_world now p text w).
  { unfold w', exec. rewrite rewriteWithGemini_response_run, Hout.
    reflexivity. }
  split; [|split].
  - unfold result. rewrite callGeminiAPI_response_run, Hout. reflexivity.
  - rewrite Hw. unfold history at 1.
    rewrite rewritten_world_settings by exact HN. reflexivity.
  - apply emitted_app. fold w'. rewrite Hw. apply rewritten_world_trace.
Qed.

Lemma truthy_text_is_returned_and_recorded_witness :
  result (callGeminiAPI_response (Fulfilled two_candidates)) keyed_world
  = Normal (VStr "First.")
  /\ map rewrittenText
       (history (exec (rewriteWithGemini_response 7
                         {| selection := "Original."; signal := 0%nat |}
                         (Fulfilled two_candidates)) keyed_world))
     = [VStr "First."].
Proof.
  destruct (truthy_text_is_returned_and_recorded keyed_world 7
              {| selection := "Original."; signal := 0%nat |} two_candidates
              _ eq_refl eq_refl eq_refl ltac:(cbn; lia))
    as (H1 & H2 & _).
  split; [exact H1 | exact (f_equal (map rewrittenText) H2)].
Defined.

(** X3. [callGeminiAPI] returns a value only when [fetch] fulfilled with a
    2xx status, the body parsed, and the value at the path is truthy; what
    it returns is that value.  So it never returns for another status, and
    never returns an empty text. *)
Theorem returns_only_truthy_text_of_ok_response (w : World)
  (fetched : Settled Response) (v : JsValue) :
  result (callGeminiAPI_response fetched) w = Normal v ->
  exists (response : Response) (data : JsValue),
    fetched = Fulfilled response
    /\ 200 <= status response <= 299
    /\ json response = Fulfilled data
    /\ v = candidate_text (get_property data "candidates")
    /\ truthy v = true
    /\ v <> VStr "".
Proof.
  unfold result. rewrite callGeminiAPI_response_run. cbn [fst].
  unfold callGeminiAPI_outcome.
  destruct fetched as [response | e]; [|discriminate].
  destruct (ok response) eqn:Eok; cbn [negb]; [|discriminate].
  destruct (json response) as [data | e] eqn:Ej; [|discriminate].
  intros H. exists response, data.
  assert (Hv : v = candidate_text (get_property data "candidates")
               /\ truthy v = true).
  { destruct data; try discriminate H; cbv zeta in H;
      match type of H with
      | context [truthy ?t] => destruct (truthy t) eqn:Et
      end; try discriminate H; inversion H; subst v; split;
      [reflexivity | exact Et]. }
  destruct Hv as (Hv & Ht).
  split; [reflexivity|]. split.
  { unfold ok in Eok. apply andb_true_iff in Eok. destruct Eok as (A & B).
    apply Z.leb_le in A, B. lia. }
  split; [exact Ej|]. split; [exact Hv|]. split; [exact Ht|].
  intros E. rewrite E in Ht. discriminate Ht.
Qed.

Lemma returns_only_truthy_text_of_ok_response_witness :
  exists (response : Response) (data : JsValue),
    ok_200 rewritten_body = Fulfilled response
    /\ 200 <= status response <= 299
    /\ json response = Fulfilled data
    /\ VStr "Rewritten." = candidate_text (get_property data "candidates")
    /\ truthy (VStr "Rewritten.") = true
    /\ VStr "Rewritten." <> VStr "".
Proof.
  apply (returns_only_truthy_text_of_ok_response keyed_world
           (ok_200 rewritten_body) (VStr "Rewritten.") eq_refl).
Defined.

(** X4. Whenever [callGeminiAPI] throws, [rewriteWithGemini] leaves the
    settings, and so the history log, as they were, replaces no selection
    and saves nothing; it shows one notice, "Error: " and the message of
    the error ("Failed to rewrite text" for an empty message), unless the
    error is named "AbortError", in which case it shows none. *)
Theorem failed_call_changes_nothing (w : World) (now : Z) (p : Pending)
  (fetched : Settled Response) (e : JsError) :
  result (callGeminiAPI_response fetched) w = Throw e ->
  let w' := exec (rewriteWithGemini_response now p fetched) w in
  let added := emitted (rewriteWithGemini_response now p fetched) w in
  settings w' = settings w
  /\ existsb is_ReplaceSelection added = false
  /\ existsb is_SaveData added = false
  /\ filter is_Notice added
     = if String.eqb (name e) "AbortError" then []
       else [Notice ("Error: " ++
                     (if truthy_string (message e) then message e
                      else "Failed to rewrite text"))].
Proof.
  intros Hres w' added.
  assert (Hout : callGeminiAPI_outcome fetched = Throw e).
  { unfold result in Hres. rewrite callGeminiAPI_response_run in Hres.
    exact Hres. }
  assert (Hw : w' = failed_world e w).
  { unfold w', exec. rewrite rewriteWithGemini_response_run, Hout.
    reflexivity. }
  assert (Ha : added
               = (ConsoleError console_label e ::
                  (if String.eqb (name e) "AbortError" then []
                   else [ConsoleError console_label e;
                         Notice ("Error: " ++
                                 (if truthy_string (message e) then message e
                                  else "Failed to rewrite text"))])
                  ++ [SetText ""])%list).
  { apply emitted_app. fold w'. rewrite Hw. apply effects_failed_world. }
  split; [rewrite Hw; apply settings_failed_world|].
  rewrite Ha. destruct (String.eqb (name e) "AbortError");
    repeat split; reflexivity.
Qed.

Lemma failed_call_changes_nothing_witness :
  result (callGeminiAPI_response network_down) keyed_world
  = Throw (mkError "TypeError" "Failed to fetch")
  /\ filter is_Notice
       (emitted (rewriteWithGemini_response 7
                   {| selection := "Original."; signal := 0%nat |}
                   network_down) keyed_world)
     = [Notice "Error: Failed to fetch"].
Proof.
  split; [reflexivity|].
  destruct (failed_call_changes_nothing keyed_world 7
              {| selection := "Original."; signal := 0%nat |}
              network_down (mkError "TypeError" "Failed to fetch") eq_refl)
    as (_ & _ & _ & H).
  exact H.
Defined.

(** X5. When the body of the response does not parse, so that
    [response.json()] rejects with an error other than an abort: for a 2xx
    status the user is shown the message of that error, for any other
    status the rejection is dropped and the user is shown the status code.
    The settings are untouched either way. *)
Theorem unparsable_body (w : World) (now : Z) (p : Pending) (code : Z)
  (err : JsError) :
  String.eqb (name err) "AbortError" = false ->
  let response := {| status := code; json := Rejected err |} in
  let w' := exec (rewriteWithGemini_response now p (Fulfilled response)) w in
  settings w' = settings w
  /\ filter is_Notice
       (emitted (rewriteWithGemini_response now p (Fulfilled response)) w)
     = [Notice ("Error: " ++
                (if ok response
                 then if truthy_string (message err) then message err
                      else "Failed to rewrite text"
                 else "API request failed: Status: " ++ string_of_Z code))].
Proof.
  intros Hname response w'.
  destruct (ok response) eqn:Eok.
  - assert (Hout : callGeminiAPI_outcome (Fulfilled response) = Throw err).
    { unfold callGeminiAPI_outcome. rewrite Eok. reflexivity. }
    split.
    + unfold w', exec. rewrite rewriteWithGemini_response_run, Hout.
      apply settings_failed_world.
    + erewrite emitted_app;
        [|unfold exec; rewrite rewriteWithGemini_response_run, Hout;
          apply effects_failed_world].
      rewrite Hname. reflexivity.
  - destruct (failed_call now p (Fulfilled response)
                ("API request failed: Status: " ++ string_of_Z code) w)
      as (_ & _ & Hs & He).
    { unfold callGeminiAPI_outcome. rewrite Eok. reflexivity. }
    split; [exact Hs|]. rewrite He. reflexivity.
Qed.

Lemma unparsable_body_witness :
  filter is_Notice
    (emitted (rewriteWithGemini_response 7
                {| selection := "Original."; signal := 0%nat |}
                (Fulfilled {| status := 200; json := Rejected not_json |}))
       keyed_world)
  = [Notice "Error: Unexpected token < in JSON at position 0"]
  /\ filter is_Notice
       (emitted (rewriteWithGemini_response 7
                   {| selection := "Original."; signal := 0%nat |}
                   (Fulfilled {| status := 502; json := Rejected not_json |}))
          keyed_world)
     = [Notice "Error: API request failed: Status: 502"].
Proof.
  split.
  - exact (proj2 (unparsable_body keyed_world 7
                    {| selection := "Original."; signal := 0%nat |}
                    200 not_json eq_refl)).
  - exact (proj2 (unparsable_body keyed_world 7
                    {| selection := "Original."; signal := 0%nat |}
                    502 not_json eq_refl)).
Defined.

(** X6. A 2xx response whose body is the JSON value [null] does not end in
    the invalid-response error: reading [data.candidates] throws a
    [TypeError], which is what the user is shown; the settings are
    untouched. *)
Theorem null_body_is_a_type_error (w : World) (now : Z) (p : Pending)
  (response : Response) :
  ok response = true ->
  json response = Fulfilled VNull ->
  let w' := exec (rewriteWithGemini_response now p (Fulfilled response)) w in
  result (callGeminiAPI_response (Fulfilled response)) w
  = Throw (TypeError_read "null" "candidates")
  /\ TypeError_read "null" "candidates" <> Error invalid_response_message
  /\ settings w' = settings w
  /\ filter is_Notice
       (emitted (rewriteWithGemini_response now p (Fulfilled response)) w)
     = [Notice ("Error: " ++ message (TypeError_read "null" "candidates"))].
Proof.
  intros Hok Hjson w'.
  assert (Hout : callGeminiAPI_outcome (Fulfilled response)
                 = Throw (TypeError_read "null" "candidates")).
  { unfold callGeminiAPI_outcome. rewrite Hok, Hjson. reflexivity. }
  split; [|split; [|split]].
  - unfold result. rewrite callGeminiAPI_response_run, Hout. reflexivity.
  - discriminate.
  - unfold w', exec. rewrite rewriteWithGemini_response_run, Hout.
    apply settings_failed_world.
  - erewrite emitted_app;
      [|unfold exec; rewrite rewriteWithGemini_response_run, Hout;
        apply effects_failed_world].
    reflexivity.
Qed.

Lemma null_body_is_a_type_error_witness :
  result (callGeminiAPI_response (ok_200 VNull)) keyed_world
  = Throw (mkError "TypeError"
             "Cannot read properties of null (reading 'candidates')").
Proof.
  exact (proj1 (null_body_is_a_type_error keyed_world 7
                  {| selection := "Original."; signal := 0%nat |}
                  {| status := 200; json := Fulfilled VNull |}
                  eq_refl eq_refl)).
Defined.

Lemma abort_while_reading_error_body_witness :
  (500 < 200 \/ 299 < 500)
  /\ filter is_Notice
       (emitted (rewriteWithGemini_response 7
                   {| selection := "Original."; signal := 0%nat |}
                   (Fulfilled {| status := 500; json := Rejected AbortError |}))
          keyed_world)
     = [Notice "Error: API request failed: Status: 500"].
Proof.
  split; [right; lia|].
  rewrite (abort_while_reading_error_body keyed_world 7
             {| selection := "Original."; signal := 0%nat |} 500
             ltac:(right; lia)).
  reflexivity.
Defined.

(* ================================================================= *)
(** ** Cancelling *)

(** X8. After a rewrite that failed for want of a key, a controller is
    still tracked although no request was sent: the cancel command aborts
    that controller and announces "Rewrite request cancelled". *)
Theorem missing_key_then_cancel (w : World) (text : string) :
  text <> "" -> apiKey w = "" ->
  let w1 := exec (rewriteWithGemini_request text) w in
  existsb is_Fetch (emitted (rewriteWithGemini_request text) w) = false
  /\ abortController w1 = Some (created w)
  /\ emitted cancelOngoingRewrite w1
     = [Abort (created w); SetText ""; Notice cancelOngoingRewrite_notice].
Proof.
  intros Ht Hk w1. apply truthy_string_true in Ht.
  apply truthy_string_false in Hk.
  assert (Hw1 : w1 = logged
                       [SetText (loading_text w);
                        ConsoleError console_label (Error missing_key_message);
                        Notice ("Error: " ++ missing_key_message);
                        SetText ""] (tracking_new w)).
  { unfold w1, exec. rewrite rewriteWithGemini_request_run, Ht, Hk.
    reflexivity. }
  split; [|split].
  - erewrite emitted_app; [|fold w1; rewrite Hw1; reflexivity]. reflexivity.
  - rewrite Hw1. reflexivity.
  - apply emitted_app. unfold exec. rewrite cancelOngoingRewrite_run.
    rewrite Hw1. unfold logged. cbn. repeat rewrite <- app_assoc.
    reflexivity.
Qed.

Lemma missing_key_then_cancel_witness :
  apiKey fresh_world = ""
  /\ emitted cancelOngoingRewrite
       (exec (rewriteWithGemini_request "hello") fresh_world)
     = [Abort 0%nat; SetText ""; Notice "Rewrite request cancelled"].
Proof.
  split; [reflexivity|].
  destruct (missing_key_then_cancel fresh_world "hello"
              ltac:(discriminate) eq_refl) as (_ & _ & H).
  exact H.
Defined.

(** X9. Cancelling while the request is in flight aborts the signal that
    request was sent with, clears the tracked controller and the status
    bar; when the request then settles with the abort, nothing more is
    shown (the abort is only logged to the console), and the settings
    are untouched. *)
Theorem cancel_in_flight (w : World) (now : Z) (text : string)
  (abort : JsError) :
  text <> "" -> apiKey w <> "" -> name abort = "AbortError" ->
  let p := {| selection := text; signal := created w |} in
  let w1 := exec (rewriteWithGemini_request text) w in
  let w2 := exec cancelOngoingRewrite w1 in
  let w3 := exec (rewriteWithGemini_response now p (Rejected abort)) w2 in
  result (rewriteWithGemini_request text) w = Normal (Some p)
  /\ filter is_Fetch (emitted (rewriteWithGemini_request text) w)
     = [request text w]
  /\ emitted cancelOngoingRewrite w1
     = [Abort (signal p); SetText ""; Notice cancelOngoingRewrite_notice]
  /\ abortController w2 = None
  /\ emitted (rewriteWithGemini_response now p (Rejected abort)) w2
     = [ConsoleError console_label abort; SetText ""]
  /\ settings w3 = settings w.
Proof.
  intros Ht Hk Hn p w1 w2 w3. apply truthy_string_true in Ht, Hk.
  assert (E1 : rewriteWithGemini_request text w
               = (Normal (Some p),
                  logged [SetText (loading_text w); request text w]
                    (tracking_new w))).
  { rewrite rewriteWithGemini_request_run, Ht, Hk. reflexivity. }
  assert (Hw1 : w1 = logged [SetText (loading_text w); request text w]
                       (tracking_new w)).
  { unfold w1, exec. rewrite E1. reflexivity. }
  assert (Hw2 : w2 = logged [Abort (created w); SetText "";
                             Notice cancelOngoingRewrite_notice]
                       (with_abortController None w1)).
  { unfold w2, exec. rewrite cancelOngoingRewrite_run. rewrite Hw1.
    reflexivity. }
  assert (Hw3 : w3 = failed_world abort w2).
  { unfold w3, exec. rewrite rewriteWithGemini_response_run. reflexivity. }
  split; [|split; [|split; [|split; [|split]]]].
  - unfold result. rewrite E1. reflexivity.
  - erewrite emitted_app; [|fold w1; rewrite Hw1; reflexivity]. reflexivity.
  - apply emitted_app. fold w2. rewrite Hw2. reflexivity.
  - rewrite Hw2. reflexivity.
  - apply emitted_app. fold w3. rewrite Hw3, effects_failed_world, Hn.
    reflexivity.
  - rewrite Hw3, settings_failed_world, Hw2, Hw1. reflexivity.
Qed.

Lemma cancel_in_flight_witness :
  apiKey keyed_world <> ""
  /\ emitted cancelOngoingRewrite
       (exec (rewriteWithGemini_request "hello") keyed_world)
     = [Abort 0%nat; SetText ""; Notice "Rewrite request cancelled"]
  /\ emitted (rewriteWithGemini_response 7
                {| selection := "hello"; signal := 0%nat |}
                (Rejected AbortError))
       (exec cancelOngoingRewrite
          (exec (rewriteWithGemini_request "hello") keyed_world))
     = [ConsoleError console_label AbortError; SetText ""].
Proof.
  split; [discriminate|].
  destruct (cancel_in_flight keyed_world 7 "hello" AbortError
              ltac:(discriminate) ltac:(discriminate) eq_refl)
    as (_ & _ & H3 & _ & H5 & _).
  split; [exact H3 | exact H5].
Defined.

(** X10. Cancelling twice is cancelling once: the second call finds no
    controller tracked and does nothing, so at most one request is ever
    aborted and at most one notice shown. *)
Theorem cancel_once_is_enough (w : World) :
  cancelOngoingRewrite (exec cancelOngoingRewrite w)
  = (Normal tt, exec cancelOngoingRewrite w)
  /\ abortController (exec cancelOngoingRewrite w) = None
  /\ exec (cancelOngoingRewrite ;; cancelOngoingRewrite) w
     = exec cancelOngoingRewrite w.
Proof.
  assert (Hn : abortController (exec cancelOngoingRewrite w) = None).
  { unfold exec. rewrite cancelOngoingRewrite_run. cbn [snd].
    destruct (abortController w) eqn:E; [reflexivity | exact E]. }
  assert (H2 : cancelOngoingRewrite (exec cancelOngoingRewrite w)
               = (Normal tt, exec cancelOngoingRewrite w)).
  { rewrite cancelOngoingRewrite_run, Hn. reflexivity. }
  split; [exact H2|]. split; [exact Hn|].
  unfold exec at 1. unfold bind.
  destruct (cancelOngoingRewrite w) as [r w1] eqn:E.
  assert (Hw1 : exec cancelOngoingRewrite w = w1)
    by (unfold exec; rewrite E; reflexivity).
  assert (Hr : r = Normal tt)
    by (rewrite cancelOngoingRewrite_run in E; inversion E; reflexivity).
  subst r. rewrite Hw1 in H2. rewrite H2, Hw1. reflexivity.
Qed.

(* ================================================================= *)
(** ** Requests that overlap, settings that change meanwhile *)

Lemma firstn_cons_firstn {A : Type} (n : nat) (x : A) (l : list A) :
  firstn n (x :: firstn n l) = firstn n (x :: l).
Proof.
  destruct n as [|n]; [reflexivity|]. rewrite !firstn_cons. f_equal.
  rewrite firstn_firstn. f_equal. apply Nat.min_l. lia.
Qed.

Lemma request_sent (text : string) (w : World) :
  text <> "" -> apiKey w <> "" ->
  rewriteWithGemini_request text w
  = (Normal (Some {| selection := text; signal := created w |}),
     logged [SetText (loading_text w); request text w] (tracking_new w)).
Proof.
  intros Ht Hk. apply truthy_string_true in Ht, Hk.
  rewrite rewriteWithGemini_request_run, Ht, Hk. reflexivity.
Qed.

Lemma settled_with_text now p fetched v (w0 w : World) :
  result (callGeminiAPI_response fetched) w0 = Normal v ->
  exec (rewriteWithGemini_response now p fetched) w
  = rewritten_world now p v w.
Proof.
  unfold result, exec. rewrite callGeminiAPI_response_run. cbn [fst].
  intros H. rewrite rewriteWithGemini_response_run, H. reflexivity.
Qed.

(** X11. When a second rewrite is started before the first has settled,
    only the second's controller is tracked, yet the first still records
    its result when it settles; and the log is ordered by the time the
    requests settle, not by the time they were sent: if the second settles
    first, the record of the first request ends up in front of it. *)
Theorem records_follow_completion_order (w : World) (s1 s2 : string)
  (now1 now2 : Z) (f1 f2 : Settled Response) (v1 v2 : JsValue) :
  s1 <> "" -> s2 <> "" -> apiKey w <> "" ->
  0 <= maxHistoryItems (settings w) ->
  result (callGeminiAPI_response f1) w = Normal v1 ->
  result (callGeminiAPI_response f2) w = Normal v2 ->
  let p1 := {| selection := s1; signal := created w |} in
  let p2 := {| selection := s2; signal := S (created w) |} in
  let w2 := exec (rewriteWithGemini_request s2)
              (exec (rewriteWithGemini_request s1) w) in
  let w3 := exec (rewriteWithGemini_response now2 p2 f2) w2 in
  let w4 := exec (rewriteWithGemini_response now1 p1 f1) w3 in
  abortController w2 = Some (signal p2)
  /\ history w4
     = firstn (Z.to_nat (maxHistoryItems (settings w)))
         (history_record now1 p1 v1 w :: history_record now2 p2 v2 w
            :: history w).
Proof.
  intros H1 H2 Hk HN R1 R2 p1 p2 w2 w3 w4.
  set (w1 := logged [SetText (loading_text w); request s1 w] (tracking_new w)).
  assert (Hw2 : w2 = logged [SetText (loading_text w1); request s2 w1]
                       (tracking_new w1)).
  { unfold w2, exec. rewrite (request_sent s1 w H1 Hk). cbn [snd].
    fold w1. rewrite (request_sent s2 w1 H2 Hk). reflexivity. }
  assert (S2 : settings w2 = settings w) by (rewrite Hw2; reflexivity).
  assert (Hw3 : w3 = rewritten_world now2 p2 v2 w2)
    by (apply (settled_with_text _ _ _ _ w); exact R2).
  assert (S3 : settings w3
               = with_rewriteHistory
                   (firstn (Z.to_nat (maxHistoryItems (settings w)))
                      (history_record now2 p2 v2 w :: history w))
                   (settings w)).
  { rewrite Hw3, rewritten_world_settings by (rewrite S2; exact HN).
    unfold history_record, history. rewrite S2. reflexivity. }
  assert (Hw4 : w4 = rewritten_world now1 p1 v1 w3)
    by (apply (settled_with_text _ _ _ _ w); exact R1).
  split; [rewrite Hw2; reflexivity|].
  rewrite Hw4. unfold history at 1.
  rewrite rewritten_world_settings by (rewrite S3; exact HN).
  unfold history_record, history. rewrite S3.
  cbn [rewriteHistory with_rewriteHistory maxHistoryItems customPrompt
       selectedModel].
  apply firstn_cons_firstn.
Qed.

Lemma records_follow_completion_order_witness :
  map originalText
    (history
       (exec (rewriteWithGemini_response 9
                {| selection := "first"; signal := 0%nat |}
                (ok_200 rewritten_body))
          (exec (rewriteWithGemini_response 8
                   {| selection := "second"; signal := 1%nat |}
                   (ok_200 rewritten_body))
             (exec (rewriteWithGemini_request "second")
                (exec (rewriteWithGemini_request "first") keyed_world)))))
  = ["first"; "second"].
Proof.
  destruct (records_follow_completion_order keyed_world "first" "second" 9 8
              (ok_200 rewritten_body) (ok_200 rewritten_body)
              (VStr "Rewritten.") (VStr "Rewritten.")
              ltac:(discriminate) ltac:(discriminate) ltac:(discriminate)
              ltac:(cbn; lia) eq_refl eq_refl) as (_ & H).
  exact (f_equal (map originalText) H).
Defined.

(** X12. The record of a rewrite holds the prompt and the model of the
    settings at the time the request settles, not those the request was
    sent with: when both are changed while the request is in flight, the
    request has gone out with the old ones and the record names the new
    ones. *)
Theorem record_names_settings_at_completion (w : World) (now : Z)
  (text q m : string) (fetched : Settled Response) (v : JsValue) :
  text <> "" -> apiKey w <> "" ->
  0 < maxHistoryItems (settings w) ->
  result (callGeminiAPI_response fetched) w = Normal v ->
  let p := {| selection := text; signal := created w |} in
  let w1 := exec (rewriteWithGemini_request text) w in
  let w2 := exec (selectedModel_onChange m) (exec (customPrompt_onChange q) w1) in
  let w3 := exec (rewriteWithGemini_response now p fetched) w2 in
  filter is_Fetch (emitted (rewriteWithGemini_request text) w)
  = [Fetch (endpoint (selectedModel (settings w)) ++ "?key=" ++ apiKey w)
           (request_body (customPrompt (settings w)) text) (signal p)]
  /\ hd_error (history w3)
     = Some {| originalText := text;
               rewrittenText := v;
               prompt := q;
               timestamp := now;
               model := m |}.
Proof.
  intros Ht Hk HN R p w1 w2 w3.
  assert (Hw1 : w1 = logged [SetText (loading_text w); request text w]
                       (tracking_new w)).
  { unfold w1, exec. rewrite request_sent by assumption. reflexivity. }
  split.
  - erewrite emitted_app; [|fold w1; rewrite Hw1; reflexivity]. reflexivity.
  - assert (Hw3 : w3 = rewritten_world now p v w2)
      by (apply (settled_with_text _ _ _ _ w); exact R).
    assert (S2 : settings w2
                 = with_selectedModel m (with_customPrompt q (settings w)))
      by (unfold w2; rewrite Hw1; reflexivity).
    rewrite Hw3. unfold history.
    rewrite rewritten_world_settings by (rewrite S2; cbn; lia).
    unfold history_record, history. rewrite S2.
    cbn [rewriteHistory with_rewriteHistory maxHistoryItems customPrompt
         selectedModel with_selectedModel with_customPrompt].
    destruct (Z.to_nat (maxHistoryItems (settings w))) as [|n] eqn:En; [lia|].
    reflexivity.
Qed.

Lemma record_names_settings_at_completion_witness :
  hd_error
    (history
       (exec (rewriteWithGemini_response 7
                {| selection := "hello"; signal := 0%nat |}
                (ok_200 rewritten_body))
          (exec (selectedModel_onChange "gemini-pro")
             (exec (customPrompt_onChange "Translate:")
                (exec (rewriteWithGemini_request "hello") keyed_world)))))
  = Some {| originalText := "hello";
            rewrittenText := VStr "Rewritten.";
            prompt := "Translate:";
            timestamp := 7;
            model := "gemini-pro" |}.
Proof.
  destruct (record_names_settings_at_completion keyed_world 7 "hello"
              "Translate:" "gemini-pro" (ok_200 rewritten_body)
              (VStr "Rewritten.")
              ltac:(discriminate) ltac:(discriminate) ltac:(cbn; lia) eq_refl)
    as (_ & H).
  exact H.
Defined.

(* ================================================================= *)
(** ** The limit, the modal and the stored settings *)

(** X13. Moving the slider to [a] and then to [b] leaves the
    [min a b] most recent records and the limit [b]: raising the limit
    again does not bring back what lowering it dropped. *)
Theorem lowering_the_limit_is_final (w : World) (a b : Z) :
  0 <= a -> 0 <= b ->
  let w' := exec (maxHistoryItems_onChange b)
              (exec (maxHistoryItems_onChange a) w) in
  maxHistoryItems (settings w') = b
  /\ history w' = firstn (Z.to_nat (Z.min a b)) (history w).
Proof.
  intros Ha Hb w'.
  destruct (maxHistoryItems_onChange_truncates w a Ha) as (_ & H1).
  destruct (maxHistoryItems_onChange_truncates
              (exec (maxHistoryItems_onChange a) w) b Hb) as (M & H2).
  split; [exact M|]. unfold w'. rewrite H2, H1, firstn_firstn.
  f_equal. lia.
Qed.

Lemma lowering_the_limit_is_final_witness :
  map originalText
    (history (exec (maxHistoryItems_onChange 50)
                (exec (maxHistoryItems_onChange 1)
                   (exec (appends three_appends) (world_keeping 10)))))
  = ["c"].
Proof.
  destruct (lowering_the_limit_is_final
              (exec (appends three_appends) (world_keeping 10)) 1 50
              ltac:(lia) ltac:(lia)) as (_ & H).
  exact (f_equal (map originalText) H).
Defined.

Lemma last_saved_run (events : list Event) :
  forall (w : World) (s0 : GeminiRewriteSettings),
  last_saved s0 (effects w) = settings w ->
  last_saved s0 (effects (run events w)) = settings (run events w).
Proof.
  induction events as [|e rest IH]; intros w s0 H; [exact H|].
  cbn [run]. apply IH.
  destruct (handle_step e w) as (l & _ & Hl & Hs & _).
  rewrite Hl, last_saved_app, H. exact Hs.
Qed.

Lemma assign_stored_of (defaults s : GeminiRewriteSettings) :
  assign defaults (Some (stored_of s)) = s.
Proof. destruct s; reflexivity. Qed.

(** X16. Loading what was last saved restores the settings exactly,
    whatever the defaults of the new process: after any run of the plugin,
    [loadSettings] on the object last handed to [saveData] yields the
    settings the plugin held when the run ended, history included. *)
Theorem restart_restores_settings (events : list Event) (w fresh : World)
  (GEMINI_DEFAULT_PROMPT : option string) :
  last_saved (settings w) (effects w) = settings w ->
  let stored := stored_of (last_saved (settings w) (effects (run events w))) in
  settings (exec (loadSettings GEMINI_DEFAULT_PROMPT (Some stored)) fresh)
  = settings (run events w).
Proof.
  intros H stored. unfold stored.
  rewrite (last_saved_run events w (settings w) H).
  unfold exec, loadSettings, modify. cbn [snd settings with_settings].
  apply assign_stored_of.
Qed.

Lemma restart_restores_settings_witness :
  settings
    (exec (loadSettings (Some "Shorten:")
             (Some (stored_of
                      (last_saved (settings fresh_world)
                         (effects (run busy_day fresh_world))))))
       keyed_world)
  = settings (run busy_day fresh_world).
Proof.
  exact (restart_restores_settings busy_day fresh_world keyed_world
           (Some "Shorten:") eq_refl).
Defined.

(** X17. A Delete button deletes by position, and the position is the one
    the record had when the modal was drawn.  When a rewrite is recorded
    while the modal is open, the button drawn for the record at [index]
    removes the record that now sits there, its newer neighbour (the new
    record for the first button); the record it was drawn for stays, at
    [index]. *)
Theorem stale_delete_button (w : World) (now : Z) (p : Pending)
  (fetched : Settled Response) (v : JsValue) (index : nat) :
  result (callGeminiAPI_response fetched) w = Normal v ->
  Z.of_nat (length (history w)) < maxHistoryItems (settings w) ->
  (index < length (history w))%nat ->
  let w1 := exec (rewriteWithGemini_response now p fetched) w in
  let w2 := exec (deleteBtn_click index) w1 in
  history w1 = history_record now p v w :: history w
  /\ history w2
     = (firstn index (history_record now p v w :: history w)
        ++ skipn index (history w))%list
  /\ nth_error (history w2) index = nth_error (history w) index
  /\ length (history w2) = length (history w).
Proof.
  intros R Hroom Hi w1 w2.
  assert (Hw1 : w1 = rewritten_world now p v w)
    by (apply (settled_with_text _ _ _ _ w); exact R).
  assert (H1 : history w1 = history_record now p v w :: history w).
  { rewrite Hw1. unfold history at 1.
    rewrite rewritten_world_settings by lia.
    cbn [rewriteHistory with_rewriteHistory].
    apply firstn_all2. cbn [length]. lia. }
  assert (H2 : history w2
               = (firstn index (history_record now p v w :: history w)
                  ++ skipn index (history w))%list).
  { unfold w2, history at 1. rewrite deleteBtn_click_settings.
    cbn [rewriteHistory with_rewriteHistory]. rewrite H1. unfold without.
    cbn [length]. destruct (Nat.ltb_spec index (S (length (history w))));
      [reflexivity | lia]. }
  split; [exact H1|]. split; [exact H2|]. split.
  - rewrite H2, nth_error_app2; rewrite length_firstn; cbn [length];
      [|lia].
    rewrite nth_error_skipn. f_equal. lia.
  - rewrite H2, length_app, length_firstn, length_skipn. cbn [length]. lia.
Qed.

Lemma stale_delete_button_witness :
  map originalText
    (history
       (exec (deleteBtn_click 0)
          (exec (rewriteWithGemini_response 7
                   {| selection := "new"; signal := 0%nat |}
                   (ok_200 rewritten_body))
             (exec (appends three_appends) (world_keeping 10)))))
  = ["c"; "b"; "a"].
Proof.
  destruct (stale_delete_button
              (exec (appends three_appends) (world_keeping 10)) 7
              {| selection := "new"; signal := 0%nat |}
              (ok_200 rewritten_body) (VStr "Rewritten.") 0
              eq_refl ltac:(cbn; lia) ltac:(cbn; lia)) as (_ & H & _).
  exact (f_equal (map originalText) H).
Defined.

(** X18. Deleting the only record of the log leaves the modal open on an
    empty log (the handler closes and reopens it without looking), while
    the history command, run next, opens nothing and says there is no
    history. *)
Theorem deleting_the_last_record (w : World) (r : RewriteHistoryItem) :
  history w = [r] ->
  let w' := exec (deleteBtn_click 0) w in
  history w' = []
  /\ emitted (deleteBtn_click 0) w
     = [SaveData (settings w'); ModalClose; ModalOpen;
        Notice "History item deleted"]
  /\ emitted showRewriteHistory w' = [Notice "No rewrite history available"].
Proof.
  intros H w'.
  assert (Hh : history w' = []).
  { unfold w', history at 1. rewrite deleteBtn_click_settings, H.
    reflexivity. }
  split; [exact Hh|]. split.
  - apply emitted_app. unfold w', exec, deleteBtn_click. run.
    repeat rewrite <- app_assoc. reflexivity.
  - apply emitted_app. unfold exec, showRewriteHistory, bind, get.
    cbv beta iota. unfold history in Hh. rewrite Hh. reflexivity.
Qed.

Lemma deleting_the_last_record_witness :
  emitted showRewriteHistory
    (exec (deleteBtn_click 0)
       (exec (appends (firstn 1 three_appends)) (world_keeping 10)))
  = [Notice "No rewrite history available"].
Proof.
  destruct (deleting_the_last_record
              (exec (appends (firstn 1 three_appends)) (world_keeping 10))
              _ eq_refl) as (_ & _ & H).
  exact H.
Defined.

(** X20. The log is changed only by a settling request, the two clear
    buttons, the Delete buttons and the slider: the rewrite, cancel and
    history commands and the other controls of the settings tab leave it
    as it is. *)
Theorem history_untouched_by_other_events (e : Event) (w : World) :
  touches_history e = false ->
  history (exec (handle e) w) = history w.
Proof.
  destruct e as [selected | now p fetched | | | index | | b | k | m | q | v | ];
    cbn [touches_history handle]; intros H; try discriminate H;
    try reflexivity.
  - unfold exec, bind. rewrite rewriteWithGemini_request_run.
    destruct (truthy_string selected), (truthy_string (apiKey w)); reflexivity.
  - unfold exec, cancel_rewrite_command, emit, modify, bind.
    rewrite cancelOngoingRewrite_run. cbn.
    destruct (abortController w); reflexivity.
  - unfold exec, showRewriteHistory. run.
    destruct (length (rewriteHistory (settings w)) =? 0)%nat; reflexivity.
Qed.

Lemma history_untouched_by_other_events_witness :
  history (exec (handle (RewriteCommand "hello")) keyed_world)
  = history keyed_world.
Proof.
  exact (history_untouched_by_other_events (RewriteCommand "hello")
           keyed_world eq_refl).
Defined.
